(** * Metasploit MCP server: RPC client, command facade and tool adapter

    A shallow embedding of [src/metasploit_mcp/client.py],
    [src/metasploit_mcp/tools.py] and [src/metasploit_mcp/utils.py], and of
    [main] in [server.py].

    - JSON documents (what [response.json()] and [json.loads] return, what
      [json.dumps] takes) are the inductive type [json]; a Python [dict] is
      an association list in insertion order.
    - Python's dynamic typing is kept: the operators the source applies to
      values of unknown shape ([in], subscripting, [.get], [.items()],
      [len], slicing, iteration, [.lower()]) are partial and answer in
      [result], raising the exception Python raises.
    - The client object ([self.token]), the HTTP requests posted so far and
      the files written are the [world]; code runs in a state-and-exception
      monad [M] over it.  State changes made before an exception are kept,
      as in Python.
    - [requests.Session.post], [json.loads], [os.environ] and the
      operating system's answers on the file system belong to the
      environment of the process: they are the fields of [env], which every
      function of the program takes. *)

From Stdlib Require Import ZArith List String Ascii Bool Lia.
From Stdlib Require Import DecimalString DecimalZ.
Import ListNotations.
Open Scope string_scope.
Open Scope Z_scope.

Set Implicit Arguments.
Set Warnings "-register-all".

(* ================================================================== *)
(** ** Python values and exceptions *)

(** A string is a sequence of characters with code below 256; [len] is
    [String.length].  JSON numbers are integers here (no claim touches a
    float). *)
Inductive json : Type :=
| JNull                                   (* None  *)
| JBool (b : bool)
| JNum (n : Z)
| JStr (s : string)
| JArr (l : list json)                    (* list  *)
| JObj (d : list (string * json)).        (* dict  *)

Definition dict := list (string * json).

Inductive exn_class : Type :=
| TypeError | AttributeError | KeyError | ValueError
| JSONDecodeError | OSError | RequestException | RecursionError.

Record exn : Type := Exn { exn_cls : exn_class; exn_str : string }.

Inductive result (A : Type) : Type :=
| Ok (a : A)
| Raise (e : exn).
Arguments Ok {A} a.
Arguments Raise {A} e.

Definition is_json_decode_error (e : exn) : bool :=
  match exn_cls e with JSONDecodeError => true | _ => false end.

(** The name Python prints for the type of a value. *)
Definition type_name (v : json) : string :=
  match v with
  | JNull => "NoneType" | JBool _ => "bool" | JNum _ => "int"
  | JStr _ => "str" | JArr _ => "list" | JObj _ => "dict"
  end.

Definition squote (s : string) : string := "'" ++ s ++ "'".

(* ------------------------------------------------------------------ *)
(** *** Strings *)

(** [str(n)] for an [int]. *)
Definition str_of_int (n : Z) : string := NilZero.string_of_int (Z.to_int n).

Definition is_upper (c : ascii) : bool :=
  let n := N_of_ascii c in
  ((65 <=? n) && (n <=? 90))%N
  || ((192 <=? n) && (n <=? 222) && negb (n =? 215))%N.

(** [str.lower] on one character: A-Z and the Latin-1 capitals. *)
Definition lower_char (c : ascii) : ascii :=
  if is_upper c then ascii_of_N (N_of_ascii c + 32) else c.

Fixpoint lower (s : string) : string :=
  match s with
  | EmptyString => EmptyString
  | String c s' => String (lower_char c) (lower s')
  end.

(** [needle in hay] for two strings: substring containment. *)
Fixpoint str_in (needle hay : string) : bool :=
  if prefix needle hay then true
  else match hay with
       | EmptyString => false
       | String _ hay' => str_in needle hay'
       end.

(** [s.replace(a, b)] for one-character [a] and [b]. *)
Fixpoint replace_char (a b : ascii) (s : string) : string :=
  match s with
  | EmptyString => EmptyString
  | String c s' => String (if Ascii.eqb c a then b else c) (replace_char a b s')
  end.

(** The characters of a string, each as a string of length 1 (iteration
    over a [str]). *)
Fixpoint chars (s : string) : list string :=
  match s with
  | EmptyString => []
  | String c s' => String c EmptyString :: chars s'
  end.

Fixpoint str_take (n : nat) (s : string) : string :=
  match n, s with
  | S n', String c s' => String c (str_take n' s')
  | _, _ => EmptyString
  end.

Definition ends_with (suffix s : string) : bool :=
  let n := String.length s in
  let m := String.length suffix in
  (m <=? n)%nat && String.eqb (substring (n - m) m s) suffix.

(** [posixpath.join(a, b)]. *)
Definition os_path_join (a b : string) : string :=
  if prefix "/" b then b
  else if String.eqb a "" || ends_with "/" a then a ++ b
  else a ++ "/" ++ b.

(* ------------------------------------------------------------------ *)
(** *** Dictionaries *)

Fixpoint dict_get (k : string) (d : dict) : option json :=
  match d with
  | [] => None
  | (k', v) :: d' => if String.eqb k k' then Some v else dict_get k d'
  end.

Definition dict_mem (k : string) (d : dict) : bool :=
  match dict_get k d with Some _ => true | None => false end.

(** [d[k] = v]: an existing key keeps its place, a new key goes last. *)
Fixpoint dict_set (d : dict) (k : string) (v : json) : dict :=
  match d with
  | [] => [(k, v)]
  | (k', v') :: d' =>
      if String.eqb k k' then (k', v) :: d' else (k', v') :: dict_set d' k v
  end.

(** [d.update(e)] for a mapping [e], and [{**d, **e}]. *)
Definition dict_merge (d e : dict) : dict :=
  fold_left (fun acc kv => dict_set acc (fst kv) (snd kv)) e d.

(* ------------------------------------------------------------------ *)
(** *** Dynamically typed operators *)

(** [bool(v)]. *)
Definition truthy (v : json) : bool :=
  match v with
  | JNull => false
  | JBool b => b
  | JNum n => negb (n =? 0)
  | JStr s => negb (String.eqb s "")
  | JArr l => match l with [] => false | _ => true end
  | JObj d => match d with [] => false | _ => true end
  end.

(** [a or b]. *)
Definition py_or (a b : json) : json := if truthy a then a else b.

(** [v == s] for a string [s]. *)
Definition eq_str (v : json) (s : string) : bool :=
  match v with JStr t => String.eqb t s | _ => false end.

(** [k in v] for a string [k]. *)
Definition py_in (k : string) (v : json) : result bool :=
  match v with
  | JObj d => Ok (dict_mem k d)
  | JArr l => Ok (existsb (fun x => eq_str x k) l)
  | JStr s => Ok (str_in k s)
  | _ => Raise (Exn TypeError
                  ("argument of type " ++ squote (type_name v) ++ " is not iterable"))
  end.

(** [v[k]] for a string [k]. *)
Definition py_getitem (v : json) (k : string) : result json :=
  match v with
  | JObj d => match dict_get k d with
              | Some x => Ok x
              | None => Raise (Exn KeyError (squote k))
              end
  | JArr _ => Raise (Exn TypeError "list indices must be integers or slices, not str")
  | JStr _ => Raise (Exn TypeError "string indices must be integers, not 'str'")
  | _ => Raise (Exn TypeError
                  (squote (type_name v) ++ " object is not subscriptable"))
  end.

Definition no_attribute (v : json) (a : string) : exn :=
  Exn AttributeError
      (squote (type_name v) ++ " object has no attribute " ++ squote a).

(** [v.get(k)]: [None] when the key is absent. *)
Definition py_get (v : json) (k : string) : result json :=
  match v with
  | JObj d => Ok (match dict_get k d with Some x => x | None => JNull end)
  | _ => Raise (no_attribute v "get")
  end.

(** [v.items()]. *)
Definition py_items (v : json) : result (list (string * json)) :=
  match v with
  | JObj d => Ok d
  | _ => Raise (no_attribute v "items")
  end.

(** [e.lower()]. *)
Definition py_lower (v : json) : result string :=
  match v with
  | JStr s => Ok (lower s)
  | _ => Raise (no_attribute v "lower")
  end.

Definition not_iterable (v : json) : exn :=
  Exn TypeError (squote (type_name v) ++ " object is not iterable").

(** The elements [for e in v] visits. *)
Definition py_iter (v : json) : result (list json) :=
  match v with
  | JArr l => Ok l
  | JStr s => Ok (map JStr (chars s))
  | JObj d => Ok (map (fun kv => JStr (fst kv)) d)
  | _ => Raise (not_iterable v)
  end.

(** [len(v)]. *)
Definition py_len (v : json) : result Z :=
  match v with
  | JArr l => Ok (Z.of_nat (List.length l))
  | JStr s => Ok (Z.of_nat (String.length s))
  | JObj d => Ok (Z.of_nat (List.length d))
  | _ => Raise (Exn TypeError
                  ("object of type " ++ squote (type_name v) ++ " has no len()"))
  end.

(** [v[:n]]; a [dict] refuses a slice as key. *)
Definition py_slice_to (n : nat) (v : json) : result json :=
  match v with
  | JArr l => Ok (JArr (firstn n l))
  | JStr s => Ok (JStr (str_take n s))
  | JObj _ => Raise (Exn KeyError "slice(None, 50, None)")
  | _ => Raise (Exn TypeError
                  (squote (type_name v) ++ " object is not subscriptable"))
  end.

(** [{"id": k, **v}]: [v] must be a mapping; its entries are written
    after ["id"], so a later ["id"] replaces the value of the first. *)
Definition dict_with_id (k : string) (v : json) : result json :=
  match v with
  | JObj attrs => Ok (JObj (dict_merge [("id", JStr k)] attrs))
  | _ => Raise (Exn TypeError
                  (squote (type_name v) ++ " object is not a mapping"))
  end.

(** A key of [dict.update] that is not a string.  The dictionaries of
    this model have string keys, the keys of the JSON document that is
    posted: a number, a boolean or [None] is kept under the text the
    document gives it.  (Two keys that Python keeps apart but the document
    spells alike, or the reverse, are outside the model.)  A list or a
    mapping cannot be a key. *)
Definition key_text (k : json) : result string :=
  match k with
  | JStr s => Ok s
  | JNum n => Ok (str_of_int n)
  | JBool true => Ok "true"
  | JBool false => Ok "false"
  | JNull => Ok "null"
  | JArr _ => Raise (Exn TypeError "unhashable type: 'list'")
  | JObj _ => Raise (Exn TypeError "unhashable type: 'dict'")
  end.

Definition str_of_nat (n : nat) : string := str_of_int (Z.of_nat n).

(** The elements [for e in v] visits: those of a list, the characters of
    a string, the keys of a mapping. *)
Definition elements_of (v : json) : option (list json) :=
  match v with
  | JArr l => Some l
  | JStr s => Some (map JStr (chars s))
  | JObj d => Some (map (fun kv => JStr (fst kv)) d)
  | _ => None
  end.

(** Element number [i] of [dict.update(iterable)]: it must be a sequence
    of two items, the key and the value. *)
Definition update_pair (i : nat) (x : json) : result (string * json) :=
  match elements_of x with
  | None =>
      Raise (Exn TypeError
               ("cannot convert dictionary update sequence element #"
                ++ str_of_nat i ++ " to a sequence"))
  | Some [k; v] =>
      match key_text k with
      | Ok s => Ok (s, v)
      | Raise e => Raise e
      end
  | Some l =>
      Raise (Exn ValueError
               ("dictionary update sequence element #" ++ str_of_nat i
                ++ " has length " ++ str_of_nat (List.length l)
                ++ "; 2 is required"))
  end.

Fixpoint update_pairs (d : dict) (i : nat) (l : list json) : result dict :=
  match l with
  | [] => Ok d
  | x :: l' =>
      match update_pair i x with
      | Ok (k, v) => update_pairs (dict_set d k v) (S i) l'
      | Raise e => Raise e
      end
  end.

(** [d.update(e)] for any value [e]: a mapping is merged, another
    iterable must yield key/value pairs, anything else is a [TypeError]. *)
Definition dict_update (d : dict) (e : json) : result dict :=
  match e with
  | JObj e' => Ok (dict_merge d e')
  | JArr l => update_pairs d 0 l
  | JStr s => update_pairs d 0 (map JStr (chars s))
  | _ => Raise (not_iterable e)
  end.

(* ================================================================== *)
(** ** The world: client state, network trace, file system *)

(** What [session.post(url, json=payload, headers=...)] sends.  The
    headers are the same constant in both call sites and are left out. *)
Record request : Type := Request { req_url : string; req_json : json }.

(** A [requests.Response]: [status_code] and the outcome of [.json()]. *)
Record response : Type :=
  Response { status_code : Z; response_json : result json }.

Record world : Type := World {
  token : json;                               (* self.token, None at start *)
  sent  : list request;                       (* requests posted, oldest first *)
  dirs  : list string;                        (* directories made *)
  files : list (string * list Byte.byte)      (* files written: path, contents *)
}.

Definition initial_world : world := World JNull [] [] [].

Definition with_token (t : json) (w : world) : world :=
  World t (sent w) (dirs w) (files w).
Definition with_sent (l : list request) (w : world) : world :=
  World (token w) l (dirs w) (files w).
Definition with_dirs (l : list string) (w : world) : world :=
  World (token w) (sent w) l (files w).
Definition with_files (l : list (string * list Byte.byte)) (w : world) : world :=
  World (token w) (sent w) (dirs w) l.

(** The [method] of a posted JSON-RPC payload. *)
Definition method_of (r : request) : option json :=
  match req_json r with JObj d => dict_get "method" d | _ => None end.

(** The [options] inside the [params] of a posted payload. *)
Definition options_of (r : request) : option json :=
  match req_json r with
  | JObj d => match dict_get "params" d with
              | Some (JObj p) => dict_get "options" p
              | _ => None
              end
  | _ => None
  end.

(* ------------------------------------------------------------------ *)
(** *** State and exception monad *)

Definition M (A : Type) : Type := world -> result A * world.

Definition ret {A} (a : A) : M A := fun w => (Ok a, w).

Definition raise {A} (e : exn) : M A := fun w => (Raise e, w).

Definition bind {A B} (m : M A) (k : A -> M B) : M B :=
  fun w => match m w with
           | (Ok a, w') => k a w'
           | (Raise e, w') => (Raise e, w')
           end.

(** A pure, possibly raising, expression. *)
Definition lift {A} (r : result A) : M A := fun w => (r, w).

(** [try: m  except <classes accepted by handles>: handler]. *)
Definition try_except {A} (m : M A) (handles : exn -> bool)
           (handler : exn -> M A) : M A :=
  fun w => match m w with
           | (Ok a, w') => (Ok a, w')
           | (Raise e, w') => if handles e then handler e w' else (Raise e, w')
           end.

(** [except Exception]. *)
Definition any_exception (e : exn) : bool := true.

Definition get_token : M json := fun w => (Ok (token w), w).
Definition set_token (t : json) : M unit := fun w => (Ok tt, with_token t w).

Declare Scope monad_scope.
Delimit Scope monad_scope with monad.
Notation "x <- m ;; k" := (bind m (fun x => k))
  (at level 61, m at next level, right associativity) : monad_scope.
Notation "m ;;; k" := (bind m (fun _ => k))
  (at level 61, right associativity) : monad_scope.
Open Scope monad_scope.

(** The serialised text a tool returns: [json.dumps(obj)] or
    [json.dumps(obj, indent=2)].  The text is kept symbolic; [envelope]
    reads back the object it encodes. *)
Inductive text : Type := json_dumps (obj : json) (indent : option Z).

Definition envelope (t : text) : json :=
  match t with json_dumps obj _ => obj end.

(** The value under [k] in the envelope of a tool's answer. *)
Definition field (k : string) (t : text) : option json :=
  match envelope t with JObj d => dict_get k d | _ => None end.

(** The argument of [f.write]: the empty [bytes] default of the [.get] on
    data, or a value out of the RPC reply. *)
Inductive write_arg : Type :=
| WBytes (b : list Byte.byte)
| WJson (v : json).

(** The list comprehension [[e for e in l if term.lower() in e.lower()]],
    over the elements already obtained from the iterable. *)
Fixpoint keep_matching (term : string) (l : list json) : result (list json) :=
  match l with
  | [] => Ok []
  | e :: l' =>
      match py_lower e with
      | Raise x => Raise x
      | Ok s =>
          match keep_matching term l' with
          | Raise x => Raise x
          | Ok r => Ok (if str_in (lower term) s then e :: r else r)
          end
      end
  end.

(** The comprehension over any value: iterating comes first. *)
Definition filter_by (term : string) (v : json) : result json :=
  match py_iter v with
  | Raise x => Raise x
  | Ok l => match keep_matching term l with
            | Raise x => Raise x
            | Ok r => Ok (JArr r)
            end
  end.

(** [if s:] for a string. *)
Definition nonempty (s : string) : bool := negb (String.eqb s "").

(* ================================================================== *)
(** ** The environment of the process *)

(** A call to the operating system on the file system. *)
Inductive fs_call : Type :=
| Makedirs (p : string)
| OpenWb (p : string).

Record env : Type := Env {
  (** [requests.Session.post]: the answer of the remote end to a request,
      given the requests that came before; [Raise] is a transport
      exception. *)
  post : list request -> request -> result response;
  (** [json.loads]. *)
  json_loads : string -> result json;
  (** [os.environ]. *)
  environ : string -> option string;
  (** The operating system: the error, if any, with which it refuses a
      call on the file system, given the directories and the files of the
      world (a missing parent directory, a path that names a directory, a
      permission). *)
  os_error : fs_call -> list string -> list (string * list Byte.byte) -> option exn
}.

Definition os_getenv (E : env) (k default : string) : string :=
  match environ E k with Some v => v | None => default end.

(* ------------------------------------------------------------------ *)
(** *** File system *)

Fixpoint file_set (fs : list (string * list Byte.byte)) (p : string)
         (c : list Byte.byte) : list (string * list Byte.byte) :=
  match fs with
  | [] => [(p, c)]
  | (p', c') :: fs' =>
      if String.eqb p p' then (p', c) :: fs' else (p', c') :: file_set fs' p c
  end.

Definition is_file (p : string) (w : world) : bool :=
  existsb (fun pc => String.eqb (fst pc) p) (files w).

Definition is_dir (p : string) (w : world) : bool :=
  existsb (String.eqb p) (dirs w).

(** [os.makedirs(p, exist_ok=True)].  The empty path and a path that the
    world holds as a file are refused whatever the system; otherwise the
    operating system decides.  On success the directory exists. *)
Definition os_makedirs (E : env) (p : string) : M unit :=
  fun w =>
    if String.eqb p "" then
      (Raise (Exn OSError "[Errno 2] No such file or directory: ''"), w)
    else if is_file p w then
      (Raise (Exn OSError ("[Errno 17] File exists: " ++ squote p)), w)
    else
      match os_error E (Makedirs p) (dirs w) (files w) with
      | Some e => (Raise e, w)
      | None => if is_dir p w then (Ok tt, w)
                else (Ok tt, with_dirs (dirs w ++ [p]) w)
      end.

(** [open(p, "wb")].  A path that the world holds as a directory is
    refused whatever the system; otherwise the operating system decides.
    On success the file is created, or emptied when it exists. *)
Definition open_wb (E : env) (p : string) : M unit :=
  fun w =>
    if is_dir p w then
      (Raise (Exn OSError ("[Errno 21] Is a directory: " ++ squote p)), w)
    else
      match os_error E (OpenWb p) (dirs w) (files w) with
      | Some e => (Raise e, w)
      | None => (Ok tt, with_files (file_set (files w) p []) w)
      end.

(** [f.write(x)] on a file opened in binary mode: only [bytes] are
    accepted. *)
Definition f_write (p : string) (x : write_arg) : M unit :=
  fun w =>
    match x with
    | WBytes b => (Ok tt, with_files (file_set (files w) p b) w)
    | WJson v =>
        (Raise (Exn TypeError
                  ("a bytes-like object is required, not " ++ squote (type_name v))),
         w)
    end.

(** [v.get] of the key data with the empty [bytes] as default. *)
Definition get_data (v : json) : result write_arg :=
  match v with
  | JObj d => Ok (match dict_get "data" d with
                  | Some x => WJson x
                  | None => WBytes []
                  end)
  | _ => Raise (no_attribute v "get")
  end.

(* ================================================================== *)
(** ** client.py *)

Module MetasploitClient.
Section Methods.
Variable E : env.

Definition rpc_url : string := os_getenv E "MSF_RPC_URL" "http://127.0.0.1:55553".
Definition rpc_password : string := os_getenv E "MSF_RPC_PASSWORD" "".

(** [self.session.post(url, json=payload, headers=...)]. *)
Definition session_post (url : string) (payload : json) : M response :=
  fun w =>
    let r := Request url payload in
    (post E (sent w) r, with_sent (sent w ++ [r]) w).

Definition auth_data : json :=
  JObj [("jsonrpc", JStr "2.0");
        ("method", JStr "login");
        ("params", JObj [("password", JStr rpc_password)]);
        ("id", JNum 1)].

(** The body of the [try] of [connect]: [Some b] when it ran into
    [return b], [None] when it fell through. *)
Definition connect_try : M (option bool) :=
  response <- session_post (rpc_url ++ "/api") auth_data ;;
  if status_code response =? 200 then
    result <- lift (response_json response) ;;
    has_result <- lift (py_in "result" result) ;;
    has_token <- (if has_result
                  then r <- lift (py_getitem result "result") ;;
                       lift (py_in "token" r)
                  else ret false) ;;
    if has_token then
      r <- lift (py_getitem result "result") ;;
      t <- lift (py_getitem r "token") ;;
      set_token t ;;;
      ret (Some true)
    else ret None
  else ret None.

Definition connect : M bool :=
  returned <- try_except connect_try any_exception
                         (fun e => (* print(...) *) ret None) ;;
  match returned with
  | Some b => ret b
  | None => ret false
  end.

(** The payload [call_rpc] builds once the token is known. *)
Definition rpc_payload (method : string) (params tok : json) : json :=
  let payload := [("jsonrpc", JStr "2.0");
                  ("method", JStr method);
                  ("params", py_or params (JObj []));
                  ("id", JNum 1)] in
  JObj (if truthy tok then dict_set payload "token" tok else payload).

(** [params] is [JNull] where the source leaves the default [None]. *)
Definition call_rpc (method : string) (params : json) : M json :=
  tok <- get_token ;;
  (if negb (truthy tok) then connect ;;; ret tt else ret tt) ;;;
  tok <- get_token ;;
  try_except
    (response <- session_post (rpc_url ++ "/api") (rpc_payload method params tok) ;;
     if status_code response =? 200 then lift (response_json response)
     else ret (JObj [("error", JStr ("HTTP " ++ str_of_int (status_code response)))]))
    any_exception
    (fun e => ret (JObj [("error", JStr (exn_str e))])).

Definition list_exploits (search_term : string) : M json :=
  result <- call_rpc "module.exploits" JNull ;;
  has_result <- lift (py_in "result" result) ;;
  if has_result then
    exploits <- lift (py_getitem result "result") ;;
    if nonempty search_term then lift (filter_by search_term exploits)
    else ret exploits
  else ret (JArr []).

Definition list_payloads (platform arch : string) : M json :=
  result <- call_rpc "module.payloads" JNull ;;
  has_result <- lift (py_in "result" result) ;;
  if has_result then
    payloads <- lift (py_getitem result "result") ;;
    payloads <- (if nonempty platform then lift (filter_by platform payloads)
                 else ret payloads) ;;
    if nonempty arch then lift (filter_by arch payloads)
    else ret payloads
  else ret (JArr []).

Definition execute_exploit (exploit_name : string) (options : dict) : M json :=
  let params := JObj [("module", JStr exploit_name);
                      ("options", JObj options)] in
  call_rpc "module.execute" params.

Definition generate_payload (payload_name format_type : string)
           (options : dict) : M json :=
  let params := JObj [("module", JStr payload_name);
                      ("options", JObj options);
                      ("datastore", JObj [("Format", JStr format_type)])] in
  call_rpc "module.execute" params.

(** [[{"id": k, **v} for k, v in items]]. *)
Fixpoint with_ids (items : list (string * json)) : result (list json) :=
  match items with
  | [] => Ok []
  | (k, v) :: items' =>
      match dict_with_id k v with
      | Raise x => Raise x
      | Ok d => match with_ids items' with
                | Raise x => Raise x
                | Ok r => Ok (d :: r)
                end
      end
  end.

Definition list_sessions : M (list json) :=
  result <- call_rpc "session.list" JNull ;;
  has_result <- lift (py_in "result" result) ;;
  if has_result then
    r <- lift (py_getitem result "result") ;;
    items <- lift (py_items r) ;;
    lift (with_ids items)
  else ret [].

Definition session_command (session_id : Z) (command : string) : M json :=
  let params := JObj [("id", JNum session_id); ("command", JStr command)] in
  call_rpc "session.shell_write" params.

Definition kill_session (session_id : Z) : M json :=
  let params := JObj [("id", JNum session_id)] in
  call_rpc "session.stop" params.

End Methods.
End MetasploitClient.

(* ================================================================== *)
(** ** tools.py *)

Module Tools.
Section WithEnv.
Variable E : env.

(** [{"status": "error", "message": str(e)}], the answer of every
    [except Exception as e]. *)
Definition error_envelope (e : exn) : text :=
  json_dumps (JObj [("status", JStr "error"); ("message", JStr (exn_str e))]) None.

Definition invalid_json : text :=
  json_dumps (JObj [("status", JStr "error");
                    ("message", JStr "Invalid JSON in additional_options")]) None.

Definition list_exploits (search_term : string) : M text :=
  try_except
    (exploits <- MetasploitClient.list_exploits E search_term ;;
     count <- lift (py_len exploits) ;;
     first <- lift (py_slice_to 50 exploits) ;;
     ret (json_dumps (JObj [("status", JStr "success");
                            ("count", JNum count);
                            ("exploits", first)]) (Some 2)))
    any_exception
    (fun e => ret (error_envelope e)).

Definition list_payloads (platform arch : string) : M text :=
  try_except
    (payloads <- MetasploitClient.list_payloads E platform arch ;;
     count <- lift (py_len payloads) ;;
     first <- lift (py_slice_to 50 payloads) ;;
     ret (json_dumps (JObj [("status", JStr "success");
                            ("count", JNum count);
                            ("payloads", first)]) (Some 2)))
    any_exception
    (fun e => ret (error_envelope e)).

(** Lines 85-93 and 149-157: the override blob is merged into [options];
    [inr] is the early [return] of the [except json.JSONDecodeError]. *)
Definition merge_additional (options : dict) (additional_options : string)
  : M (dict + text) :=
  if nonempty additional_options then
    try_except
      (extra_opts <- lift (json_loads E additional_options) ;;
       options <- lift (dict_update options extra_opts) ;;
       ret (inl options))
      is_json_decode_error
      (fun _ => ret (inr invalid_json))
  else ret (inl options).

(** Lines 77-83: the options built from the explicit parameters. *)
Definition exploit_options (rhosts payload lhost : string) (lport : Z) : dict :=
  let options := [("RHOSTS", JStr rhosts)] in
  let options := if nonempty payload
                 then dict_set options "PAYLOAD" (JStr payload) else options in
  let options := if nonempty lhost
                 then dict_set options "LHOST" (JStr lhost) else options in
  if negb (lport =? 0)
  then dict_set options "LPORT" (JStr (str_of_int lport)) else options.

(** Lines 96-107: [Some t] is the early [return] of the check gate. *)
Definition check_gate (exploit_name : string) (options : dict)
  : M (option text) :=
  check_result <- MetasploitClient.call_rpc E "module.check"
                    (JObj [("module", JStr exploit_name);
                           ("options", JObj options)]) ;;
  has_result <- lift (py_in "result" check_result) ;;
  not_exploitable <-
    (if has_result
     then r <- lift (py_getitem check_result "result") ;;
          status <- lift (py_get r "status") ;;
          ret (negb (eq_str status "exploitable"))
     else ret false) ;;
  if not_exploitable then
    ret (Some (json_dumps
                 (JObj [("status", JStr "check_failed");
                        ("message", JStr "Target is not vulnerable or check failed");
                        ("check_result", check_result)]) None))
  else ret None.

Definition run_exploit (exploit_name rhosts payload lhost : string)
           (lport : Z) (additional_options : string) (run_check : bool)
  : M text :=
  try_except
    (merged <- merge_additional (exploit_options rhosts payload lhost lport)
                                additional_options ;;
     match merged with
     | inr early => ret early
     | inl options =>
         gate <- (if run_check then check_gate exploit_name options
                  else ret None) ;;
         match gate with
         | Some early => ret early
         | None =>
             result <- MetasploitClient.execute_exploit E exploit_name options ;;
             ret (json_dumps (JObj [("status", JStr "success");
                                    ("exploit", JStr exploit_name);
                                    ("target", JStr rhosts);
                                    ("result", result)]) (Some 2))
         end
     end)
    any_exception
    (fun e => ret (error_envelope e)).

(** Lines 143-147. *)
Definition payload_options (lhost : string) (lport : Z) : dict :=
  let options := [] in
  let options := if nonempty lhost
                 then dict_set options "LHOST" (JStr lhost) else options in
  if negb (lport =? 0)
  then dict_set options "LPORT" (JStr (str_of_int lport)) else options.

(** Line 166. *)
Definition payload_filename (payload_name format_type : string) : string :=
  replace_char "/" "_" payload_name ++ "." ++ format_type.

Definition generate_payload (payload_name format_type lhost : string)
           (lport : Z) (additional_options : string) : M text :=
  try_except
    (merged <- merge_additional (payload_options lhost lport)
                                additional_options ;;
     match merged with
     | inr early => ret early
     | inl options =>
         result <- MetasploitClient.generate_payload E payload_name
                     format_type options ;;
         has_result <- lift (py_in "result" result) ;;
         if has_result then
           let save_dir := os_getenv E "PAYLOAD_SAVE_DIR" "./payloads" in
           os_makedirs E save_dir ;;;
           let filename := payload_filename payload_name format_type in
           let filepath := os_path_join save_dir filename in
           open_wb E filepath ;;;
           r <- lift (py_getitem result "result") ;;
           data <- lift (get_data r) ;;
           f_write filepath data ;;;
           ret (json_dumps (JObj [("status", JStr "success");
                                  ("payload", JStr payload_name);
                                  ("format", JStr format_type);
                                  ("saved_to", JStr filepath);
                                  ("result", result)]) (Some 2))
         else
           ret (json_dumps (JObj [("status", JStr "error");
                                  ("message", JStr "Payload generation failed");
                                  ("result", result)]) None)
     end)
    any_exception
    (fun e => ret (error_envelope e)).

Definition list_sessions : M text :=
  try_except
    (sessions <- MetasploitClient.list_sessions E ;;
     ret (json_dumps (JObj [("status", JStr "success");
                            ("count", JNum (Z.of_nat (List.length sessions)));
                            ("sessions", JArr sessions)]) (Some 2)))
    any_exception
    (fun e => ret (error_envelope e)).

Definition send_session_command (session_id : Z) (command : string) : M text :=
  try_except
    (result <- MetasploitClient.session_command E session_id command ;;
     ret (json_dumps (JObj [("status", JStr "success");
                            ("session_id", JNum session_id);
                            ("command", JStr command);
                            ("result", result)]) (Some 2)))
    any_exception
    (fun e => ret (error_envelope e)).

Definition kill_session (session_id : Z) : M text :=
  try_except
    (result <- MetasploitClient.kill_session E session_id ;;
     ret (json_dumps (JObj [("status", JStr "success");
                            ("session_id", JNum session_id);
                            ("result", result)]) (Some 2)))
    any_exception
    (fun e => ret (error_envelope e)).

Definition get_module_info (module_name : string) : M text :=
  try_except
    (result <- MetasploitClient.call_rpc E "module.info"
                 (JObj [("module", JStr module_name)]) ;;
     ret (json_dumps (JObj [("status", JStr "success");
                            ("module", JStr module_name);
                            ("info", result)]) (Some 2)))
    any_exception
    (fun e => ret (error_envelope e)).

End WithEnv.
End Tools.

(* ================================================================== *)
(** ** Mock environments *)

(** A remote end that gives the same answer to every request, a
    [json.loads] that rejects every text, and an empty [os.environ]. *)
Definition answer_all (r : result response) : list request -> request -> result response :=
  fun _ _ => r.

Definition decode_error : exn :=
  Exn JSONDecodeError "Expecting value: line 1 column 1 (char 0)".

Definition reject_all : string -> result json := fun _ => Raise decode_error.

Definition no_environ : string -> option string := fun _ => None.

(** A path cut at its last slash: the text before it, if there is a slash,
    and the text after it. *)
Fixpoint path_split (p : string) : option string * string :=
  match p with
  | EmptyString => (None, EmptyString)
  | String c p' =>
      match path_split p' with
      | (None, name) =>
          if Ascii.eqb c "/" then (Some EmptyString, name)
          else (None, String c name)
      | (Some d, name) => (Some (String c d), name)
      end
  end.

(** The operating system of the examples: a machine on which any
    directory can be made, and a file can be opened for writing when its
    name is a file name and the directory before its last slash, if any,
    has been made.  Paths are compared letter by letter. *)
Definition plain_fs
  : fs_call -> list string -> list (string * list Byte.byte) -> option exn :=
  fun c made _ =>
    match c with
    | Makedirs _ => None
    | OpenWb p =>
        let (parent, name) := path_split p in
        if String.eqb name "" || String.eqb name "." || String.eqb name ".."
        then Some (Exn OSError ("[Errno 21] Is a directory: " ++ squote p))
        else
          match parent with
          | None => None
          | Some d =>
              if existsb (String.eqb d) made then None
              else Some (Exn OSError
                           ("[Errno 2] No such file or directory: " ++ squote p))
          end
    end.

Definition mock (r : result response) : env :=
  Env (answer_all r) reject_all no_environ plain_fs.

(** HTTP 200 with a JSON body. *)
Definition ok_200 (body : json) : result response := Ok (Response 200 (Ok body)).

(** An HTTP status with a JSON body. *)
Definition http (status : Z) (body : json) : result response :=
  Ok (Response status (Ok body)).

(** The override blob of the LPORT example, an object with the one key
    LPORT of value 5555 (a string), and a [json.loads] that knows it. *)
Definition dq : string := String (ascii_of_nat 34) EmptyString.

Definition lport_blob : string :=
  "{" ++ dq ++ "LPORT" ++ dq ++ ": " ++ dq ++ "5555" ++ dq ++ "}".

Definition loads_lport : string -> result json :=
  fun s => if String.eqb s lport_blob
           then Ok (JObj [("LPORT", JStr "5555")])
           else Raise decode_error.

(** The remote sessions of the specification's example. *)
Definition two_sessions : list (string * json) :=
  [("1", JObj [("type", JStr "shell")]);
   ("2", JObj [("type", JStr "meterpreter")])].

(** The module names of the specification's example. *)
Definition two_exploits : list json :=
  [JStr "exploit/windows/smb/ms17_010"; JStr "exploit/unix/ftp"].

(** An environment whose [json.loads] knows the LPORT blob. *)
Definition lport_env : env :=
  Env (answer_all (http 500 JNull)) loads_lport no_environ plain_fs.

(** Sixty module names. *)
Definition sixty_names : list json := repeat (JStr "exploit/multi/handler") 60.

(** A blob of 100000 opening brackets: it is not JSON, and [json.loads]
    gives up on it with a RecursionError, not with a JSONDecodeError. *)
Definition deep_blob : string := N.iter 100000 (String "[") EmptyString.

Definition recursion_error : exn :=
  Exn RecursionError
      "maximum recursion depth exceeded while decoding a JSON array from a unicode string".

Definition loads_deep : string -> result json :=
  fun s => if String.eqb s deep_blob then Raise recursion_error
           else Raise decode_error.

Definition deep_env : env :=
  Env (answer_all (http 500 JNull)) loads_deep no_environ plain_fs.

(** The methods of the requests posted, oldest first. *)
Definition methods (w : world) : list (option json) := map method_of (sent w).

(* ================================================================== *)
(** ** What the specification says, in its own words *)

(** The token a login reply grants: the reply has status 200 and a body
    that is an object whose [result] is an object with a [token] field. *)
Definition granted_token (reply : result response) : option json :=
  match reply with
  | Raise _ => None
  | Ok resp =>
      if status_code resp =? 200 then
        match response_json resp with
        | Ok (JObj body) =>
            match dict_get "result" body with
            | Some (JObj r) => dict_get "token" r
            | _ => None
            end
        | _ => None
        end
      else None
  end.

Definition error_reply (message : string) : json :=
  JObj [("error", JStr message)].

(** The classification of one round trip as the code makes it: status 200
    against every other status. *)
Definition classify (reply : result response) : json :=
  match reply with
  | Raise e => error_reply (exn_str e)
  | Ok resp =>
      if status_code resp =? 200 then
        match response_json resp with
        | Ok body => body
        | Raise e => error_reply (exn_str e)
        end
      else error_reply ("HTTP " ++ str_of_int (status_code resp))
  end.

(** The classification the specification words: any 2xx status with a
    parseable body gives the body. *)
Definition classify_2xx (reply : result response) : json :=
  match reply with
  | Raise e => error_reply (exn_str e)
  | Ok resp =>
      if (200 <=? status_code resp) && (status_code resp <? 300) then
        match response_json resp with
        | Ok body => body
        | Raise e => error_reply (exn_str e)
        end
      else error_reply ("HTTP " ++ str_of_int (status_code resp))
  end.

(** An Error envelope: an object with an [error] field and no [result]. *)
Definition is_error_envelope (v : json) : bool :=
  match v with
  | JObj d => dict_mem "error" d && negb (dict_mem "result" d)
  | _ => false
  end.

(** [e] contains [term] as a substring, case folded. *)
Definition contains_nocase (term e : string) : Prop :=
  exists pre post, lower e = pre ++ lower term ++ post.

(** The test of the comprehension on a name: [term.lower() in e.lower()]. *)
Definition icontains (term e : string) : bool := str_in (lower term) (lower e).

(** The strings of a list that holds only strings. *)
Fixpoint strings_of (l : list json) : option (list string) :=
  match l with
  | [] => Some []
  | JStr s :: l' => match strings_of l' with
                    | Some r => Some (s :: r)
                    | None => None
                    end
  | _ :: _ => None
  end.

(** The attribute mapping of a session entry. *)
Definition attrs_of (v : json) : dict :=
  match v with JObj a => a | _ => [] end.

(** The outcome of merging the override blob, which reads no state. *)
Definition merged_options (E : env) (options : dict) (additional_options : string)
  : result (dict + text) :=
  fst (Tools.merge_additional E options additional_options initial_world).

(** The envelopes of [run_exploit]. *)
Definition exploit_success (exploit_name rhosts : string) (result : json) : text :=
  json_dumps (JObj [("status", JStr "success");
                    ("exploit", JStr exploit_name);
                    ("target", JStr rhosts);
                    ("result", result)]) (Some 2).

Definition check_params (exploit_name : string) (options : dict) : json :=
  JObj [("module", JStr exploit_name); ("options", JObj options)].

Definition generate_params (payload_name format_type : string) (options : dict) : json :=
  JObj [("module", JStr payload_name);
        ("options", JObj options);
        ("datastore", JObj [("Format", JStr format_type)])].

(** The request of [connect] and the request of [call_rpc]. *)
Definition login_request (E : env) : request :=
  Request (MetasploitClient.rpc_url E ++ "/api") (MetasploitClient.auth_data E).

Definition rpc_request (E : env) (method : string) (params tok : json) : request :=
  Request (MetasploitClient.rpc_url E ++ "/api")
          (MetasploitClient.rpc_payload method params tok).

(** The world after [connect]: the login request is on the trace and the
    token is the granted one, if any. *)
Definition after_connect (E : env) (w : world) : world :=
  let w' := with_sent (sent w ++ [login_request E]) w in
  match granted_token (post E (sent w) (login_request E)) with
  | Some t => with_token t w'
  | None => w'
  end.

(** The world in which [call_rpc] posts its own request: [connect] has run
    when no token was held. *)
Definition before_request (E : env) (w : world) : world :=
  if truthy (token w) then w else after_connect E w.

(** A request that is the login or carries the options [o]. *)
Definition login_or_options (E : env) (o : dict) (r : request) : Prop :=
  r = login_request E \/ options_of r = Some (JObj o).

Definition has_method (m : string) (r : request) : Prop :=
  method_of r = Some (JStr m).

(** An envelope whose status is not success. *)
Definition not_success (t : text) : Prop :=
  field "status" t <> Some (JStr "success").

(* ================================================================== *)
(** ** utils.py *)

(** The white space [int] skips around a literal: the ASCII blanks, and
    the two Latin-1 spaces (NEL and the no-break space), which it reads as
    blanks. *)
Definition is_space (c : ascii) : bool :=
  let n := N_of_ascii c in
  (((9 <=? n) && (n <=? 13)) || (n =? 32) || (n =? 133) || (n =? 160))%N.

Definition is_digit (c : ascii) : bool :=
  let n := N_of_ascii c in ((48 <=? n) && (n <=? 57))%N.

Definition digit_value (c : ascii) : Z := Z.of_N (N_of_ascii c) - 48.

(** The digits of a decimal literal: at least one digit, single
    underscores between digits only.  The answer is the value and the
    number of digits read. *)
Fixpoint digits_acc (acc : Z) (count : nat) (after_digit : bool) (s : string)
  : option (Z * nat) :=
  match s with
  | EmptyString => if after_digit then Some (acc, count) else None
  | String c s' =>
      if is_digit c then digits_acc (10 * acc + digit_value c) (S count) true s'
      else if Ascii.eqb c "_" then
             if after_digit then digits_acc acc count false s' else None
           else None
  end.

Fixpoint lstrip (s : string) : string :=
  match s with
  | EmptyString => EmptyString
  | String c s' => if is_space c then lstrip s' else s
  end.

Fixpoint rstrip (s : string) : string :=
  match s with
  | EmptyString => EmptyString
  | String c s' =>
      match rstrip s' with
      | EmptyString => if is_space c then EmptyString else String c EmptyString
      | r => String c r
      end
  end.

(** The literal [int] reads from a string, in base 10: white space
    around, an optional sign, then the digits.  The answer is the value and
    the number of digits. *)
Definition int_literal (s : string) : option (Z * nat) :=
  let body := rstrip (lstrip s) in
  let signed :=
    match body with
    | String "+" r => (false, r)
    | String "-" r => (true, r)
    | _ => (false, body)
    end in
  match digits_acc 0 0 false (snd signed) with
  | Some (n, count) => Some (if fst signed then - n else n, count)
  | None => None
  end.

(** [int(s)] for a string; [None] is the [ValueError].  [max_str_digits]
    is [sys.get_int_max_str_digits()], 4300 unless configured, 0 for no
    limit: a literal of more digits is refused. *)
Definition py_int (max_str_digits : nat) (s : string) : option Z :=
  match int_literal s with
  | Some (n, count) =>
      if (0 <? max_str_digits)%nat && (max_str_digits <? count)%nat then None
      else Some n
  | None => None
  end.

(** [s.split(sep)] for a one-character separator. *)
Fixpoint split_on (sep : ascii) (s : string) : list string :=
  match s with
  | EmptyString => [EmptyString]
  | String c s' =>
      if Ascii.eqb c sep then EmptyString :: split_on sep s'
      else match split_on sep s' with
           | p :: ps => String c p :: ps
           | [] => [String c EmptyString]
           end
  end.

(** [all(0 <= int(part) <= 255 for part in parts)]: [all] stops at the
    first part out of range; [None] is the [ValueError] of [int]. *)
Fixpoint all_octets (max_str_digits : nat) (parts : list string) : option bool :=
  match parts with
  | [] => Some true
  | part :: rest =>
      match py_int max_str_digits part with
      | None => None
      | Some n => if (0 <=? n) && (n <=? 255)
                  then all_octets max_str_digits rest
                  else Some false
      end
  end.

Module Utils.

(** [json.dumps(data, indent=2, default=str)]. *)
Definition format_output (data : json) : text := json_dumps data (Some 2).

Definition validate_host (max_str_digits : nat) (host : string) : bool :=
  if negb (nonempty host) then false
  else
    let parts := split_on "." host in
    if (List.length parts =? 4)%nat then
      match all_octets max_str_digits parts with
      | Some b => b
      | None => false
      end
    else true.

Definition parse_options (E : env) (options_str : string) : result json :=
  match json_loads E options_str with
  | Ok v => Ok v
  | Raise e => if is_json_decode_error e then Ok (JObj []) else Raise e
  end.

End Utils.

(* ================================================================== *)
(** ** server.py *)

(** The [--transport] choices and the parsed arguments. *)
Inductive transport_choice : Type := stdio | http_transport | sse.

Record namespace : Type :=
  Namespace { transport : transport_choice; host : string; port : Z }.

(** How [main] ends: [sys.exit(code)], or the call of [mcp.run] with its
    keyword arguments. *)
Inductive main_outcome : Type :=
| SystemExit (code : Z)
| McpRun (kwargs : list (string * json)).

(** [main] once [parser.parse_args()] has answered [args].  [os.getenv]
    without a default answers [None] for an unset variable; [None] and the
    empty string are both false. *)
Definition main (E : env) (args : namespace) : main_outcome :=
  if negb (match environ E "MSF_RPC_PASSWORD" with
           | Some v => nonempty v
           | None => false
           end)
  then SystemExit 1
  else
    match transport args with
    | stdio => McpRun []
    | http_transport => McpRun [("transport", JStr "http");
                                ("host", JStr (host args));
                                ("port", JNum (port args))]
    | sse => McpRun [("transport", JStr "sse");
                     ("host", JStr (host args));
                     ("port", JNum (port args))]
    end.

(* ================================================================== *)
(** ** Further vocabulary for the properties *)

(** The payload of [call_rpc] with and without a token. *)
Definition payload_with_token (method : string) (params tok : json) : json :=
  JObj [("jsonrpc", JStr "2.0"); ("method", JStr method);
        ("params", py_or params (JObj [])); ("id", JNum 1); ("token", tok)].

Definition payload_without_token (method : string) (params : json) : json :=
  JObj [("jsonrpc", JStr "2.0"); ("method", JStr method);
        ("params", py_or params (JObj [])); ("id", JNum 1)].

Definition api_url (E : env) : string := MetasploitClient.rpc_url E ++ "/api".

(** A status every caller of a tool can rely on. *)
Definition known_status (t : text) : Prop :=
  field "status" t = Some (JStr "success") \/
  field "status" t = Some (JStr "error") \/
  field "status" t = Some (JStr "check_failed").

Definition check_failed_envelope (check_result : json) : text :=
  json_dumps (JObj [("status", JStr "check_failed");
                    ("message", JStr "Target is not vulnerable or check failed");
                    ("check_result", check_result)]) None.

(** What the check gate decides from the reply of module.check: [None]
    lets run-exploit go on, [Some t] makes it return [t]. *)
Definition gate_of (check_result : json) : result (option text) :=
  match py_in "result" check_result with
  | Raise e => Raise e
  | Ok false => Ok None
  | Ok true =>
      match py_getitem check_result "result" with
      | Raise e => Raise e
      | Ok r =>
          match py_get r "status" with
          | Raise e => Raise e
          | Ok status =>
              if eq_str status "exploitable" then Ok None
              else Ok (Some (check_failed_envelope check_result))
          end
      end
  end.

(** The reply [call_rpc] returns in world [w]. *)
Definition rpc_reply (E : env) (method : string) (params : json) (w : world) : json :=
  classify (post E (sent (before_request E w))
                 (rpc_request E method params (token (before_request E w)))).

(** The world [call_rpc] leaves. *)
Definition rpc_world (E : env) (method : string) (params : json) (w : world) : world :=
  with_sent (sent (before_request E w)
             ++ [rpc_request E method params (token (before_request E w))])
            (before_request E w).

(** The last step of run-exploit: the execution and its success envelope. *)
Definition then_execute (E : env) (exploit_name rhosts : string) (options : dict)
           (w : world) : result text * world :=
  (Ok (exploit_success exploit_name rhosts
         (rpc_reply E "module.execute" (check_params exploit_name options) w)),
   rpc_world E "module.execute" (check_params exploit_name options) w).

(** The result of the reply is a mapping whose status is exploitable. *)
Definition exploitable (v : json) : bool :=
  match v with
  | JObj r => match dict_get "status" r with
              | Some s => eq_str s "exploitable"
              | None => false
              end
  | _ => false
  end.

(** The directory and the path of generate-payload. *)
Definition save_dir (E : env) : string := os_getenv E "PAYLOAD_SAVE_DIR" "./payloads".

Definition save_path (E : env) (payload_name format_type : string) : string :=
  os_path_join (save_dir E) (Tools.payload_filename payload_name format_type).

(** The directories once [d] has been made. *)
Definition dirs_with (d : string) (w : world) : list string :=
  if is_dir d w then dirs w else (dirs w ++ [d])%list.

(** The operating system lets generate-payload make its save directory
    and open its save path, in world [w]. *)
Definition can_save (E : env) (payload_name format_type : string) (w : world) : Prop :=
  save_dir E <> "" /\
  is_file (save_dir E) w = false /\
  os_error E (Makedirs (save_dir E)) (dirs w) (files w) = None /\
  is_dir (save_path E payload_name format_type) w = false /\
  os_error E (OpenWb (save_path E payload_name format_type))
           (dirs_with (save_dir E) w) (files w) = None.

Definition payload_success (payload_name format_type filepath : string)
           (result : json) : text :=
  json_dumps (JObj [("status", JStr "success");
                    ("payload", JStr payload_name);
                    ("format", JStr format_type);
                    ("saved_to", JStr filepath);
                    ("result", result)]) (Some 2).

(** No character of [s] is [c]. *)
Fixpoint lacks (c : ascii) (s : string) : bool :=
  match s with
  | EmptyString => true
  | String c' s' => negb (Ascii.eqb c' c) && lacks c s'
  end.

(** Every character of [s] is a decimal digit. *)
Fixpoint all_digits (s : string) : bool :=
  match s with
  | EmptyString => true
  | String c s' => is_digit c && all_digits s'
  end.

(** How many characters of [s] are [c]. *)
Fixpoint count_char (c : ascii) (s : string) : nat :=
  match s with
  | EmptyString => 0%nat
  | String c' s' => ((if Ascii.eqb c' c then 1 else 0) + count_char c s')%nat
  end.

(** A part that [int] reads as a number from 0 to 255. *)
Definition octet_literal (max_str_digits : nat) (part : string) : Prop :=
  exists n, py_int max_str_digits part = Some n /\ 0 <= n <= 255.

(** The dotted quad of four integers, as [str] prints them. *)
Definition dotted_quad (a b c d : Z) : string :=
  str_of_int a ++ "." ++ str_of_int b ++ "." ++ str_of_int c ++ "." ++ str_of_int d.

Definition is_octet (n : Z) : bool := (0 <=? n) && (n <=? 255).

(** Mocks for the properties: a remote end that grants the token abc to a
    login and answers an empty result to the rest, and worlds with a token
    held. *)
Definition granting_post : list request -> request -> result response :=
  fun _ r =>
    match method_of r with
    | Some (JStr "login") => ok_200 (JObj [("result", JObj [("token", JStr "abc")])])
    | _ => ok_200 (JObj [("result", JArr [])])
    end.

Definition granting_env : env :=
  Env granting_post reject_all no_environ plain_fs.

Definition authenticated_world : world := World (JStr "abc") [] [] [].

(** A [json.loads] that knows the text 5, and its environment. *)
Definition loads_five : string -> result json :=
  fun s => if String.eqb s "5" then Ok (JNum 5) else Raise decode_error.

Definition five_env : env :=
  Env (answer_all (http 500 JNull)) loads_five no_environ plain_fs.

(** An environment with a password set. *)
Definition password_env : env :=
  Env (answer_all (http 500 JNull)) reject_all
      (fun k => if String.eqb k "MSF_RPC_PASSWORD" then Some "s3cret" else None)
      plain_fs.

Definition three_payloads : list json :=
  [JStr "windows/x64/meterpreter/reverse_tcp";
   JStr "linux/x64/shell_reverse_tcp";
   JStr "windows/meterpreter/reverse_tcp"].


(* ================================================================== *)
(** ** Dictionaries and strings: lemmas *)

Lemma dict_get_set_same (d : dict) (k : string) (v : json) :
  dict_get k (dict_set d k v) = Some v.
Proof.
  induction d as [|[k' v'] d IH]; simpl.
  - now rewrite String.eqb_refl.
  - destruct (String.eqb k k') eqn:Ek; simpl; rewrite Ek; auto.
Qed.

Lemma dict_get_set_other (d : dict) (k k' : string) (v : json) :
  k <> k' -> dict_get k (dict_set d k' v) = dict_get k d.
Proof.
  intros Hne. induction d as [|[k0 v0] d IH]; simpl.
  - destruct (String.eqb k k') eqn:Ek; auto.
    apply String.eqb_eq in Ek. contradiction.
  - destruct (String.eqb k' k0) eqn:Ek0; simpl.
    + apply String.eqb_eq in Ek0. subst k0.
      destruct (String.eqb k k') eqn:Ek; auto.
      apply String.eqb_eq in Ek. contradiction.
    + destruct (String.eqb k k0); auto.
Qed.

Lemma dict_get_not_in (k : string) (d : dict) :
  ~ In k (map fst d) -> dict_get k d = None.
Proof.
  induction d as [|[k' v'] d IH]; simpl; intros Hn; auto.
  destruct (String.eqb k k') eqn:Ek.
  - apply String.eqb_eq in Ek. subst. exfalso. apply Hn. now left.
  - apply IH. intros Hin. apply Hn. now right.
Qed.

(** Last write wins: after a merge a key of the second mapping has the
    value of the second mapping, and every other key keeps its value. *)
Lemma dict_get_merge (k : string) (e d : dict) :
  NoDup (map fst e) ->
  dict_get k (dict_merge d e) =
  match dict_get k e with
  | Some v => Some v
  | None => dict_get k d
  end.
Proof.
  unfold dict_merge. revert d.
  induction e as [|[k' v'] e IH]; simpl; intros d Hnd; auto.
  inversion Hnd as [|? ? Hnotin Hnd']; subst.
  rewrite IH by assumption.
  destruct (String.eqb k k') eqn:Ek.
  - apply String.eqb_eq in Ek. subst k'.
    rewrite (dict_get_not_in _ _ Hnotin). apply dict_get_set_same.
  - destruct (dict_get k e); auto.
    apply dict_get_set_other. intros ->. now rewrite String.eqb_refl in Ek.
Qed.

Lemma prefix_app (a b : string) : prefix a (a ++ b) = true.
Proof.
  induction a as [|c a IH]; simpl.
  - now destruct b.
  - destruct (ascii_dec c c); [assumption | contradiction].
Qed.

Lemma prefix_split (a s : string) :
  prefix a s = true -> exists post, s = a ++ post.
Proof.
  revert s. induction a as [|c a IH]; intros s H.
  - now exists s.
  - destruct s as [|c' s]; simpl in H; [discriminate|].
    destruct (ascii_dec c c'); [|discriminate]. subst c'.
    destruct (IH _ H) as [post ->]. now exists post.
Qed.

Lemma str_in_prefix (needle hay : string) :
  prefix needle hay = true -> str_in needle hay = true.
Proof. intros H. destruct hay; cbn [str_in]; now rewrite H. Qed.

(** Python's [in] on strings is substring containment. *)
Lemma str_in_iff (needle hay : string) :
  str_in needle hay = true <-> exists pre post, hay = pre ++ needle ++ post.
Proof.
  split.
  - induction hay as [|c hay IH]; cbn [str_in].
    + destruct (prefix needle "") eqn:Ep; [|discriminate].
      intros _. destruct (prefix_split _ _ Ep) as [post Hp].
      now exists "", post.
    + destruct (prefix needle (String c hay)) eqn:Ep.
      * intros _. destruct (prefix_split _ _ Ep) as [post Hp].
        now exists "", post.
      * intros H. destruct (IH H) as (pre & post & ->).
        now exists (String c pre), post.
  - intros (pre & post & ->).
    induction pre as [|c pre IH]; cbn [append].
    + apply str_in_prefix, prefix_app.
    + cbn [str_in].
      destruct (prefix needle (String c (pre ++ needle ++ post))); auto.

Qed.

(* ================================================================== *)
(** ** The transport session *)

(** Unfolds the monad. *)
Ltac run := unfold bind, try_except, lift, ret, raise, set_token, get_token,
              any_exception; cbn [fst snd].

Section Transport.
Variable E : env.

(** [connect] never raises; it answers [True] exactly when the login
    reply grants a token, which it then stores. *)
Lemma connect_spec (w : world) :
  MetasploitClient.connect E w =
  (Ok (match granted_token (post E (sent w) (login_request E)) with
       | Some _ => true
       | None => false
       end),
   after_connect E w).
Proof.
  unfold MetasploitClient.connect, MetasploitClient.connect_try,
    MetasploitClient.session_post, after_connect, granted_token.
  fold (login_request E). run.
  destruct (post E (sent w) (login_request E)) as [[status body]|e]; cbn;
    [|reflexivity].
  destruct (status =? 200); cbn; [|reflexivity].
  destruct body as [[| | | s | l | d]|e]; cbn; try reflexivity.
  - destruct (str_in "result" s); reflexivity.
  - destruct (existsb _ l); reflexivity.
  - unfold dict_mem.
    destruct (dict_get "result" d) as [[| | | s | l | r]|]; cbn;
      try reflexivity.
    + destruct (str_in "token" s); reflexivity.
    + destruct (existsb _ l); reflexivity.
    + unfold dict_mem. destruct (dict_get "token" r); reflexivity.
Qed.

(** [call_rpc] never raises: it posts one request, after a login when
    no token was held, and answers the classification of the reply. *)
Lemma call_rpc_spec (method : string) (params : json) (w : world) :
  let w1 := before_request E w in
  let req := rpc_request E method params (token w1) in
  MetasploitClient.call_rpc E method params w =
  (Ok (classify (post E (sent w1) req)), with_sent (sent w1 ++ [req]) w1).
Proof.
  unfold MetasploitClient.call_rpc, before_request. run.
  destruct (truthy (token w)) eqn:Etok; cbn [negb].
  - unfold MetasploitClient.session_post, rpc_request, classify.
    destruct (post E (sent w) _) as [[status body]|e]; cbn; [|reflexivity].
    destruct (status =? 200); cbn; [|reflexivity].
    destruct body; reflexivity.
  - rewrite connect_spec.
    unfold MetasploitClient.session_post, rpc_request, classify.
    destruct (post E (sent (after_connect E w)) _) as [[status body]|e]; cbn;
      [|reflexivity].
    destruct (status =? 200); cbn; [|reflexivity].
    destruct body; reflexivity.
Qed.

(** The requests [call_rpc] adds to the trace: at most one login, then
    its own. *)
Lemma sent_before_request (w : world) :
  sent (before_request E w) = sent w \/
  sent (before_request E w) = (sent w ++ [login_request E])%list.
Proof.
  unfold before_request, after_connect.
  destruct (truthy (token w)); [now left|right].
  destruct (granted_token _); reflexivity.
Qed.

End Transport.

(** [call_rpc] case by case: a token held, granted, refused. *)
Lemma rpc_request_with_token (E : env) (m : string) (p tok : json) :
  truthy tok = true ->
  rpc_request E m p tok = Request (api_url E) (payload_with_token m p tok).
Proof.
  intros H. unfold rpc_request, MetasploitClient.rpc_payload. now rewrite H.
Qed.

Lemma rpc_request_without_token (E : env) (m : string) (p tok : json) :
  truthy tok = false ->
  rpc_request E m p tok = Request (api_url E) (payload_without_token m p).
Proof.
  intros H. unfold rpc_request, MetasploitClient.rpc_payload. now rewrite H.
Qed.

Lemma call_rpc_held (E : env) (method : string) (params : json) (w : world) :
  truthy (token w) = true ->
  MetasploitClient.call_rpc E method params w =
  (Ok (classify (post E (sent w)
                      (Request (api_url E)
                               (payload_with_token method params (token w))))),
   with_sent (sent w ++ [Request (api_url E)
                                 (payload_with_token method params (token w))])
             w).
Proof.
  intros H. rewrite call_rpc_spec. unfold before_request. rewrite H.
  now rewrite rpc_request_with_token by exact H.
Qed.

Lemma call_rpc_granted (E : env) (method : string) (params t : json) (w : world) :
  truthy (token w) = false ->
  granted_token (post E (sent w) (login_request E)) = Some t ->
  truthy t = true ->
  MetasploitClient.call_rpc E method params w =
  (Ok (classify (post E (sent w ++ [login_request E])
                      (Request (api_url E) (payload_with_token method params t)))),
   World t
         (sent w ++ [login_request E;
                     Request (api_url E) (payload_with_token method params t)])
         (dirs w) (files w)).
Proof.
  intros Hw Hg Ht. rewrite call_rpc_spec.
  unfold before_request, after_connect. rewrite Hw, Hg. cbn [token sent with_token with_sent].
  rewrite rpc_request_with_token by exact Ht.
  unfold with_sent. cbn [token sent dirs files]. now rewrite <- app_assoc.
Qed.

Lemma call_rpc_refused (E : env) (method : string) (params : json) (w : world) :
  truthy (token w) = false ->
  granted_token (post E (sent w) (login_request E)) = None ->
  MetasploitClient.call_rpc E method params w =
  (Ok (classify (post E (sent w ++ [login_request E])
                      (Request (api_url E) (payload_without_token method params)))),
   with_sent (sent w ++ [login_request E;
                         Request (api_url E) (payload_without_token method params)])
             w).
Proof.
  intros Hw Hg. rewrite call_rpc_spec.
  unfold before_request, after_connect. rewrite Hw, Hg. cbn [token sent with_sent].
  rewrite rpc_request_without_token by exact Hw.
  unfold with_sent. cbn [token sent dirs files]. now rewrite <- app_assoc.
Qed.

Lemma call_rpc_granted_empty (E : env) (method : string) (params t : json)
      (w : world) :
  truthy (token w) = false ->
  granted_token (post E (sent w) (login_request E)) = Some t ->
  truthy t = false ->
  MetasploitClient.call_rpc E method params w =
  (Ok (classify (post E (sent w ++ [login_request E])
                      (Request (api_url E) (payload_without_token method params)))),
   World t
         (sent w ++ [login_request E;
                     Request (api_url E) (payload_without_token method params)])
         (dirs w) (files w)).
Proof.
  intros Hw Hg Ht. rewrite call_rpc_spec.
  unfold before_request, after_connect. rewrite Hw, Hg. cbn [token sent with_token with_sent].
  rewrite rpc_request_without_token by exact Ht.
  unfold with_sent. cbn [token sent dirs files]. now rewrite <- app_assoc.
Qed.

(* ================================================================== *)
(** ** Claims on the transport session *)

(** C5, as the code has it.  For every method, parameters and world,
    [call_rpc] does not raise: it returns a value.  The value is decided by
    the reply to its own request alone: a transport exception gives an
    Error envelope with the text of the exception; a status other than 200
    gives the Error envelope HTTP <status>; status 200 with a parseable
    body gives that body unchanged, whatever it holds; status 200 with an
    unparseable body gives an Error envelope with the text of the parse
    exception. *)
Theorem call_rpc_never_raises_and_classifies
        (E : env) (method : string) (params : json) (w : world) :
  exists out w',
    MetasploitClient.call_rpc E method params w = (Ok out, w') /\
    match post E (sent (before_request E w))
               (rpc_request E method params (token (before_request E w))) with
    | Raise e => out = error_reply (exn_str e)
    | Ok resp =>
        if status_code resp =? 200 then
          match response_json resp with
          | Ok body => out = body
          | Raise e => out = error_reply (exn_str e)
          end
        else out = error_reply ("HTTP " ++ str_of_int (status_code resp))
    end.
Proof.
  pose proof (call_rpc_spec E method params w) as H. cbv zeta in H.
  eexists; eexists. split; [exact H|].
  unfold classify.
  destruct (post E _ _) as [resp|e]; [|reflexivity].
  destruct (status_code resp =? 200); [|reflexivity].
  destruct (response_json resp); reflexivity.
Qed.

(** C5 as stated fails: a reply with status 201, which is a 2xx status,
    and the parseable body with an empty result list is not returned
    verbatim; the answer is the Error envelope HTTP 201. *)
Lemma call_rpc_status_201_counterexample :
  let body := JObj [("result", JArr [])] in
  let E := mock (http 201 body) in
  fst (MetasploitClient.call_rpc E "module.exploits" JNull initial_world)
  = Ok (error_reply "HTTP 201")
  /\ fst (MetasploitClient.call_rpc E "module.exploits" JNull initial_world)
     <> Ok (classify_2xx (http 201 body)).
Proof.
  split; [reflexivity|]. vm_compute. discriminate.
Qed.

(** C6, as the code has it.  [connect] does not raise.  It answers
    success exactly when the login reply has status 200 and a body that is
    an object whose result is an object with a token field; it then stores
    that token.  In every other case it answers failure and leaves the
    token as it was.  An invoke after it does not raise either.  With a
    token held it posts its one request with that token.  With none it logs
    in again and then posts its request: with the token that login granted
    if it granted a non-empty one, and with no token field otherwise.  It
    answers the classification of the reply to that request (which need not
    be an Error envelope). *)
Theorem connect_succeeds_iff_token_granted (E : env) (w : world) :
  exists b w',
    MetasploitClient.connect E w = (Ok b, w') /\
    (b = true <-> exists t, granted_token (post E (sent w) (login_request E)) = Some t) /\
    token w' = match granted_token (post E (sent w) (login_request E)) with
               | Some t => t
               | None => token w
               end /\
    sent w' = (sent w ++ [login_request E])%list /\
    forall method params,
      exists out w'',
        MetasploitClient.call_rpc E method params w' = (Ok out, w'') /\
        (truthy (token w') = true ->
         sent w'' = (sent w' ++ [Request (api_url E)
                                         (payload_with_token method params (token w'))])%list
         /\ out = classify (post E (sent w')
                                 (Request (api_url E)
                                          (payload_with_token method params (token w'))))) /\
        (truthy (token w') = false ->
         exists req,
           req = match granted_token (post E (sent w') (login_request E)) with
                 | Some t => if truthy t
                             then Request (api_url E) (payload_with_token method params t)
                             else Request (api_url E) (payload_without_token method params)
                 | None => Request (api_url E) (payload_without_token method params)
                 end
           /\ sent w'' = (sent w' ++ [login_request E; req])%list
           /\ out = classify (post E (sent w' ++ [login_request E]) req)).
Proof.
  eexists; eexists. split; [apply connect_spec|]. split; [|split; [|split]].
  - destruct (granted_token _) as [t|]; split; intros H;
      try reflexivity; try discriminate.
    + now exists t.
    + destruct H as [t H]. discriminate.
  - unfold after_connect. destruct (granted_token _); reflexivity.
  - unfold after_connect. destruct (granted_token _); reflexivity.
  - intros method params.
    set (w' := after_connect E w).
    destruct (truthy (token w')) eqn:Hw.
    + rewrite (call_rpc_held E method params w' Hw).
      do 2 eexists. split; [reflexivity|]. split; [|discriminate].
      intros _. split; reflexivity.
    + destruct (granted_token (post E (sent w') (login_request E))) as [t|] eqn:Hg.
      * destruct (truthy t) eqn:Ht.
        -- rewrite (call_rpc_granted E method params w' Hw Hg Ht).
           do 2 eexists. split; [reflexivity|]. split; [discriminate|].
           intros _. eexists. split; [reflexivity|]. split; reflexivity.
        -- rewrite (call_rpc_granted_empty E method params w' Hw Hg Ht).
           do 2 eexists. split; [reflexivity|]. split; [discriminate|].
           intros _. eexists. split; [reflexivity|]. split; reflexivity.
      * rewrite (call_rpc_refused E method params w' Hw Hg).
        do 2 eexists. split; [reflexivity|]. split; [discriminate|].
        intros _. eexists. split; [reflexivity|]. split; reflexivity.
Qed.

(** C6 as stated fails in its last part: when every reply is status 200
    with a body whose result has no token, [connect] fails and the token
    stays unset, but the invoke that follows returns that body, which is a
    Result and not an Error envelope. *)
Lemma connect_failure_then_result_counterexample :
  let E := mock (ok_200 (JObj [("result", JObj [])])) in
  let w := snd (MetasploitClient.connect E initial_world) in
  fst (MetasploitClient.connect E initial_world) = Ok false /\
  token w = JNull /\
  fst (MetasploitClient.call_rpc E "module.exploits" JNull w)
  = Ok (JObj [("result", JObj [])]) /\
  is_error_envelope (JObj [("result", JObj [])]) = false.
Proof.
  repeat split.
Qed.

(* ================================================================== *)
(** ** Claims on the command facade *)

Lemma strings_of_map (l : list json) (names : list string) :
  strings_of l = Some names -> l = map JStr names.
Proof.
  revert names. induction l as [|x l IH]; simpl; intros names H.
  - now inversion H.
  - destruct x; try discriminate.
    destruct (strings_of l) as [r|]; [|discriminate].
    inversion H; subst. simpl. now rewrite (IH r eq_refl).
Qed.

Lemma keep_matching_strings (term : string) (names : list string) :
  keep_matching term (map JStr names)
  = Ok (map JStr (filter (icontains term) names)).
Proof.
  induction names as [|e names IH]; simpl; [reflexivity|].
  rewrite IH. unfold icontains.
  destruct (str_in (lower term) (lower e)); reflexivity.
Qed.

Lemma icontains_iff (term e : string) :
  icontains term e = true <-> contains_nocase term e.
Proof. apply str_in_iff. Qed.

Lemma call_rpc_answer (E : env) (method : string) (params reply : json) (w : world) :
  fst (MetasploitClient.call_rpc E method params w) = Ok reply ->
  exists w', MetasploitClient.call_rpc E method params w = (Ok reply, w').
Proof.
  intros H. destruct (MetasploitClient.call_rpc E method params w) as [r w'].
  simpl in H. subst r. now exists w'.
Qed.

(** C8, as the code has it.  When the reply to module.exploits is an
    object: without a result field (an Error reply, for one) the answer is
    the empty list; with a result that is a list of strings the answer is,
    for a non-empty search term, the names that contain the term as a
    substring once both are lower-cased, in their original order, and the
    whole list for an empty term.  A result that is not a list of strings
    is not covered: the code raises on it or returns it as it is. *)
Theorem list_exploits_filters_by_substring
        (E : env) (term : string) (w : world) (body : dict) :
  fst (MetasploitClient.call_rpc E "module.exploits" JNull w) = Ok (JObj body) ->
  match dict_get "result" body with
  | None => fst (MetasploitClient.list_exploits E term w) = Ok (JArr [])
  | Some (JArr l) =>
      match strings_of l with
      | Some names =>
          fst (MetasploitClient.list_exploits E term w)
          = Ok (JArr (map JStr (if nonempty term
                                then filter (icontains term) names
                                else names)))
      | None => True
      end
  | Some _ => True
  end
  /\ forall e, icontains term e = true <-> contains_nocase term e.
Proof.
  intros H. split; [|intros e; apply icontains_iff].
  destruct (call_rpc_answer _ _ _ _ H) as [w' Hc].
  unfold MetasploitClient.list_exploits, bind, lift, ret. rewrite Hc.
  cbn [py_in]. unfold dict_mem.
  destruct (dict_get "result" body) as [r|] eqn:Er; [|reflexivity].
  destruct r; auto.
  destruct (strings_of l) as [names|] eqn:Es; auto.
  cbn [py_getitem]. rewrite Er.
  apply strings_of_map in Es. subst l.
  destruct (nonempty term); [|reflexivity].
  cbn [fst]. unfold filter_by. cbn [py_iter].
  now rewrite keep_matching_strings.
Qed.

(** C8 as stated fails on a malformed Result: with the reply whose result
    is the number 5 and the search term smb, [list_exploits] raises a
    TypeError instead of returning an empty sequence. *)
Lemma list_exploits_malformed_result_counterexample :
  let E := mock (ok_200 (JObj [("result", JNum 5)])) in
  fst (MetasploitClient.list_exploits E "smb" initial_world)
  = Raise (Exn TypeError "'int' object is not iterable")
  /\ fst (MetasploitClient.list_exploits E "smb" initial_world) <> Ok (JArr []).
Proof.
  split; [reflexivity|]. vm_compute. discriminate.
Qed.

Lemma with_ids_mappings (entries : list (string * json)) :
  Forall (fun kv => exists attrs, snd kv = JObj attrs /\ NoDup (map fst attrs)) entries ->
  MetasploitClient.with_ids entries
  = Ok (map (fun kv => JObj (dict_merge [("id", JStr (fst kv))] (attrs_of (snd kv))))
            entries).
Proof.
  induction 1 as [|[k v] entries (attrs & Hv & _) _ IH]; simpl; [reflexivity|].
  simpl in Hv. subst v. simpl. now rewrite IH.
Qed.

(** C2, as the code has it.  When the reply to session.list is an object
    whose result maps ids to attribute mappings, [list_sessions] returns
    one element per entry, in order; each element is the attribute mapping
    with the id added under the key id, unless the attributes have an id
    key of their own: then the attribute's value is the one returned. *)
Theorem list_sessions_merges_id_under_attributes
        (E : env) (w : world) (body : dict) (entries : list (string * json)) :
  fst (MetasploitClient.call_rpc E "session.list" JNull w) = Ok (JObj body) ->
  dict_get "result" body = Some (JObj entries) ->
  Forall (fun kv => exists attrs, snd kv = JObj attrs /\ NoDup (map fst attrs)) entries ->
  exists elems,
    fst (MetasploitClient.list_sessions E w) = Ok (map JObj elems) /\
    Forall2 (fun kv d =>
               forall a, dict_get a d =
                         match dict_get a (attrs_of (snd kv)) with
                         | Some v => Some v
                         | None => if String.eqb a "id"
                                   then Some (JStr (fst kv)) else None
                         end)
            entries elems.
Proof.
  intros H Hr Hall.
  destruct (call_rpc_answer _ _ _ _ H) as [w' Hc].
  exists (map (fun kv => dict_merge [("id", JStr (fst kv))] (attrs_of (snd kv))) entries).
  split.
  - unfold MetasploitClient.list_sessions, bind, lift, ret. rewrite Hc.
    cbn [py_in py_getitem]. unfold dict_mem. rewrite Hr.
    cbn [py_items fst]. rewrite (with_ids_mappings Hall).
    now rewrite map_map.
  - clear H Hr Hc. induction Hall as [|[k v] entries (attrs & Hv & Hnd) _ IH];
      simpl; constructor; auto.
    intros a. simpl in Hv. subst v. cbn [attrs_of snd fst].
    rewrite dict_get_merge by exact Hnd.
    destruct (dict_get a attrs); [reflexivity|].
    simpl. destruct (String.eqb a "id"); reflexivity.
Qed.

(** C2 as stated fails on a collision: for the entry 7 whose attributes
    carry their own id x, the element returned has id x, not 7. *)
Lemma list_sessions_id_collision_counterexample :
  let attrs := JObj [("id", JStr "x"); ("type", JStr "shell")] in
  let E := mock (ok_200 (JObj [("result", JObj [("7", attrs)])])) in
  fst (MetasploitClient.list_sessions E initial_world)
  = Ok [JObj [("id", JStr "x"); ("type", JStr "shell")]]
  /\ dict_get "id" [("id", JStr "x"); ("type", JStr "shell")] <> Some (JStr "7").
Proof.
  split; [reflexivity|]. simpl. discriminate.
Qed.

(* ================================================================== *)
(** ** The tool adapter: traces and outcomes *)

Section Adapter.
Variable E : env.

Lemma method_of_rpc (m : string) (p tok : json) :
  method_of (rpc_request E m p tok) = Some (JStr m).
Proof.
  unfold rpc_request, MetasploitClient.rpc_payload, method_of.
  destruct (truthy tok); reflexivity.
Qed.

Lemma options_of_rpc (m : string) (p : dict) (o tok : json) :
  p <> [] -> dict_get "options" p = Some o ->
  options_of (rpc_request E m (JObj p) tok) = Some o.
Proof.
  intros Hp Ho.
  unfold rpc_request, MetasploitClient.rpc_payload, options_of, py_or.
  destruct p as [|kv p]; [contradiction|]. cbn [truthy].
  destruct (truthy tok); cbn; exact Ho.
Qed.

(** What one [call_rpc] returns and adds to the trace. *)
Lemma call_rpc_trace (m : string) (p : json) (w : world) :
  exists pre tok,
    (pre = [] \/ pre = [login_request E]) /\
    MetasploitClient.call_rpc E m p w =
    (Ok (classify (post E (sent w ++ pre) (rpc_request E m p tok))),
     with_sent (sent w ++ pre ++ [rpc_request E m p tok]) (before_request E w)).
Proof.
  rewrite call_rpc_spec.
  destruct (sent_before_request E w) as [Hs|Hs].
  - exists [], (token (before_request E w)). split; [now left|].
    rewrite Hs, app_nil_r. reflexivity.
  - exists [login_request E], (token (before_request E w)). split; [now right|].
    rewrite Hs, <- app_assoc. reflexivity.
Qed.

(** The override blob is merged without touching the world. *)
Lemma merge_additional_pure (options : dict) (additional_options : string)
      (w : world) :
  Tools.merge_additional E options additional_options w
  = (merged_options E options additional_options, w).
Proof.
  unfold merged_options, Tools.merge_additional.
  destruct (nonempty additional_options); [|reflexivity]. run.
  destruct (json_loads E additional_options) as [extra|e].
  - destruct (dict_update options extra) as [o|e]; [reflexivity|].
    destruct (is_json_decode_error e); reflexivity.
  - destruct (is_json_decode_error e); reflexivity.
Qed.

Lemma merged_options_mapping (options extra : dict) (additional_options : string) :
  additional_options <> "" ->
  json_loads E additional_options = Ok (JObj extra) ->
  merged_options E options additional_options = Ok (inl (dict_merge options extra)).
Proof.
  intros Hne Hl. unfold merged_options, Tools.merge_additional, nonempty.
  destruct (String.eqb additional_options "") eqn:Ee.
  - apply String.eqb_eq in Ee. contradiction.
  - cbn [negb]. run. rewrite Hl. reflexivity.
Qed.

(** The check gate posts what its [call_rpc] posts and either stops the
    tool, with an envelope that is not a success, or lets it go on. *)
Lemma check_gate_outcome (exploit_name : string) (options : dict) (w : world) :
  let w1 := snd (MetasploitClient.call_rpc E "module.check"
                   (check_params exploit_name options) w) in
  Tools.check_gate E exploit_name options w = (Ok None, w1) \/
  (exists t, Tools.check_gate E exploit_name options w = (Ok (Some t), w1)
             /\ not_success t) \/
  (exists e, Tools.check_gate E exploit_name options w = (Raise e, w1)).
Proof.
  unfold Tools.check_gate. fold (check_params exploit_name options). run.
  rewrite call_rpc_spec. cbn [snd].
  destruct (classify _) as [| b | n | s | l | d]; cbn;
    try (right; right; eexists; reflexivity).
  - destruct (str_in "result" s); cbn;
      [right; right; eexists; reflexivity | now left].
  - destruct (existsb _ l); cbn;
      [right; right; eexists; reflexivity | now left].
  - unfold dict_mem.
    destruct (dict_get "result" d) as [r|]; cbn; [|now left].
    destruct r as [| b | n | s | l | r]; cbn;
      try (right; right; eexists; reflexivity).
    destruct (eq_str _ "exploitable"); cbn; [now left|].
    right; left. eexists. split; [reflexivity|].
    unfold not_success. cbn. discriminate.
Qed.

End Adapter.

Section RunExploit.
Variable E : env.
Variables exploit_name rhosts payload lhost : string.
Variable lport : Z.
Variable additional_options : string.

(** The three ways [run_exploit] ends: before any request, at the check
    gate, or after the execution request. *)
Lemma run_exploit_cases (run_check : bool) (w : world) :
  let out := Tools.run_exploit E exploit_name rhosts payload lhost lport
                               additional_options run_check w in
  match merged_options E (Tools.exploit_options rhosts payload lhost lport)
                       additional_options with
  | Raise e => out = (Ok (Tools.error_envelope e), w)
  | Ok (inr early) => out = (Ok early, w)
  | Ok (inl options) =>
      let w0 := if run_check
                then snd (MetasploitClient.call_rpc E "module.check"
                            (check_params exploit_name options) w)
                else w in
      (run_check = true /\ exists t, out = (Ok t, w0) /\ not_success t)
      \/ (exists r w',
             MetasploitClient.call_rpc E "module.execute"
               (check_params exploit_name options) w0 = (Ok r, w')
             /\ out = (Ok (exploit_success exploit_name rhosts r), w'))
  end.
Proof.
  unfold Tools.run_exploit. run.
  rewrite merge_additional_pure.
  destruct (merged_options E _ additional_options) as [[options|early]|e];
    try reflexivity.
  assert (Hexec : forall w0,
             exists r w',
               MetasploitClient.call_rpc E "module.execute"
                 (check_params exploit_name options) w0 = (Ok r, w')
               /\ (let (r0, w'0) := MetasploitClient.execute_exploit E exploit_name options w0 in
                   match r0 with
                   | Ok a => (Ok (exploit_success exploit_name rhosts a), w'0)
                   | Raise e => (Ok (Tools.error_envelope e), w'0)
                   end)
                  = (Ok (exploit_success exploit_name rhosts r), w')).
  { intros w0. unfold MetasploitClient.execute_exploit.
    fold (check_params exploit_name options).
    rewrite call_rpc_spec. eexists; eexists. split; reflexivity. }
  destruct run_check.
  - destruct (check_gate_outcome E exploit_name options w)
      as [Hg|[(t & Hg & Hns)|(e & Hg)]]; rewrite Hg.
    + right. destruct (Hexec (snd (MetasploitClient.call_rpc E "module.check"
                                     (check_params exploit_name options) w)))
        as (r & w' & Hc & Ho).
      exists r, w'. split; [exact Hc|].
      unfold exploit_success in Ho. run. destruct (MetasploitClient.execute_exploit _ _ _ _) as [[a|e] w2]; exact Ho.
    + left. split; [reflexivity|]. exists t. split; [reflexivity|exact Hns].
    + left. split; [reflexivity|]. eexists. split; [reflexivity|].
      unfold not_success. cbn. discriminate.
  - right. destruct (Hexec w) as (r & w' & Hc & Ho).
    exists r, w'. split; [exact Hc|].
    unfold exploit_success in Ho.
    destruct (MetasploitClient.execute_exploit _ _ _ _) as [[a|e] w2]; exact Ho.
Qed.

End RunExploit.

Section Traces.
Variable E : env.

Lemma app_inv_nil {A} (l new : list A) : l = (l ++ new)%list -> new = [].
Proof.
  intros H. apply (app_inv_head l). now rewrite app_nil_r, <- H.
Qed.

(** The requests of one [call_rpc] whose parameters carry [options]. *)
Lemma call_rpc_posts (m : string) (p : dict) (options : dict) (w : world) :
  p <> [] -> dict_get "options" p = Some (JObj options) ->
  exists new,
    sent (snd (MetasploitClient.call_rpc E m (JObj p) w)) = (sent w ++ new)%list /\
    Forall (fun r => has_method "login" r \/ has_method m r) new /\
    Forall (login_or_options E options) new /\
    Exists (fun r => options_of r = Some (JObj options)) new /\
    Exists (has_method m) new.
Proof.
  intros Hp Ho.
  destruct (call_rpc_trace E m (JObj p) w) as (pre & tok & Hpre & Hc).
  rewrite Hc. cbn [snd sent with_sent].
  exists (pre ++ [rpc_request E m (JObj p) tok])%list.
  pose proof (options_of_rpc E m tok Hp Ho) as Hopt.
  pose proof (method_of_rpc E m (JObj p) tok) as Hm.
  split; [reflexivity|].
  assert (Hl : has_method "login" (login_request E)) by reflexivity.
  destruct Hpre as [-> | ->]; cbn [app];
    (split; [|split; [|split]]).
  - constructor; [now right | constructor].
  - constructor; [now right | constructor].
  - now constructor.
  - now constructor.
  - constructor; [now left | constructor; [now right | constructor]].
  - constructor; [now left | constructor; [now right | constructor]].
  - apply Exists_cons_tl. now constructor.
  - apply Exists_cons_tl. now constructor.
Qed.

Lemma check_params_options (n : string) (o : dict) :
  dict_get "options" [("module", JStr n); ("options", JObj o)] = Some (JObj o).
Proof. reflexivity. Qed.

Lemma not_execute_login_or_check (r : request) :
  has_method "login" r \/ has_method "module.check" r ->
  ~ has_method "module.execute" r.
Proof.
  unfold has_method. intros [H|H] H'; rewrite H in H'; discriminate.
Qed.

End Traces.

(* ================================================================== *)
(** ** Claims on the tool adapter *)

Lemma generate_payload_early (E : env) (payload_name format_type lhost : string)
      (lport : Z) (additional_options : string) (early : text) (w : world) :
  merged_options E (Tools.payload_options lhost lport) additional_options
  = Ok (inr early) ->
  Tools.generate_payload E payload_name format_type lhost lport
                         additional_options w = (Ok early, w).
Proof.
  intros Hm. unfold Tools.generate_payload, bind, try_except, ret.
  rewrite merge_additional_pure, Hm. reflexivity.
Qed.

Lemma merged_options_rejected (E : env) (options : dict)
      (additional_options : string) (e : exn) :
  additional_options <> "" ->
  json_loads E additional_options = Raise e ->
  merged_options E options additional_options
  = if is_json_decode_error e then Ok (inr Tools.invalid_json) else Raise e.
Proof.
  intros Hne Hl. unfold merged_options, Tools.merge_additional, nonempty.
  destruct (String.eqb additional_options "") eqn:Ee.
  - apply String.eqb_eq in Ee. contradiction.
  - cbn [negb]. unfold bind, try_except, lift, ret. rewrite Hl.
    destruct (is_json_decode_error e); reflexivity.
Qed.

Lemma generate_payload_rejected (E : env) (payload_name format_type lhost : string)
      (lport : Z) (additional_options : string) (e : exn) (w : world) :
  merged_options E (Tools.payload_options lhost lport) additional_options
  = Raise e ->
  Tools.generate_payload E payload_name format_type lhost lport
                         additional_options w = (Ok (Tools.error_envelope e), w).
Proof.
  intros Hm. unfold Tools.generate_payload, bind, try_except, ret.
  rewrite merge_additional_pure, Hm. reflexivity.
Qed.

(** C3, as the code has it.  When [additional_options] is not empty and
    [json.loads] raises on it, run-exploit and generate-payload both return
    an envelope of status error and the world is unchanged: no request was
    posted (no check, execute or generate) and no file was written.  The
    message is Invalid JSON in additional_options when the exception is a
    JSONDecodeError; for any other exception it is the text of that
    exception. *)
Theorem invalid_json_aborts_before_any_rpc
        (E : env) (exploit_name rhosts payload lhost : string) (lport : Z)
        (run_check : bool) (payload_name format_type p_lhost : string)
        (p_lport : Z) (additional_options : string) (e : exn) (w : world) :
  additional_options <> "" ->
  json_loads E additional_options = Raise e ->
  let message := if is_json_decode_error e
                 then "Invalid JSON in additional_options"
                 else exn_str e in
  Tools.run_exploit E exploit_name rhosts payload lhost lport
                    additional_options run_check w
  = (Ok (json_dumps (JObj [("status", JStr "error"); ("message", JStr message)])
                    None), w)
  /\ Tools.generate_payload E payload_name format_type p_lhost p_lport
                            additional_options w
     = (Ok (json_dumps (JObj [("status", JStr "error"); ("message", JStr message)])
                       None), w).
Proof.
  intros Hne Hl. cbv zeta. split.
  - pose proof (run_exploit_cases E exploit_name rhosts payload lhost lport
                                  additional_options run_check w) as H.
    cbv zeta in H.
    rewrite (merged_options_rejected E _ Hne Hl) in H.
    destruct (is_json_decode_error e); exact H.
  - pose proof (merged_options_rejected E (Tools.payload_options p_lhost p_lport)
                                        Hne Hl) as Hm.
    destruct (is_json_decode_error e).
    + now apply generate_payload_early.
    + now apply generate_payload_rejected.
Qed.

(** C3 as stated fails on a blob that [json.loads] gives up on with an
    exception other than JSONDecodeError.  On 100000 opening brackets it
    raises RecursionError: no request is posted, but the message of the
    envelope is the text of that exception, not Invalid JSON. *)
Lemma invalid_json_recursion_error_counterexample :
  deep_blob <> ""
  /\ json_loads deep_env deep_blob = Raise recursion_error
  /\ Tools.run_exploit deep_env "exploit/unix/ftp" "10.0.0.1" "" "" 4444
                       deep_blob true initial_world
     = (Ok (json_dumps
              (JObj [("status", JStr "error");
                     ("message",
                      JStr "maximum recursion depth exceeded while decoding a JSON array from a unicode string")])
              None), initial_world)
  /\ Tools.generate_payload deep_env "linux/x86/shell_reverse_tcp" "elf" "" 4444
                            deep_blob initial_world
     = (Ok (json_dumps
              (JObj [("status", JStr "error");
                     ("message",
                      JStr "maximum recursion depth exceeded while decoding a JSON array from a unicode string")])
              None), initial_world)
  /\ Tools.error_envelope recursion_error <> Tools.invalid_json.
Proof.
  assert (Hne : deep_blob <> "").
  { unfold deep_blob. change 100000%N with (N.succ 99999).
    rewrite N.iter_succ. discriminate. }
  assert (Hl : json_loads deep_env deep_blob = Raise recursion_error).
  { cbn [json_loads deep_env]. unfold loads_deep.
    now rewrite String.eqb_refl. }
  split; [exact Hne|]. split; [exact Hl|]. split; [|split].
  - pose proof (run_exploit_cases deep_env "exploit/unix/ftp" "10.0.0.1" "" "" 4444
                                  deep_blob true initial_world) as H.
    cbv zeta in H.
    rewrite (merged_options_rejected deep_env _ Hne Hl) in H. exact H.
  - apply (@generate_payload_rejected deep_env "linux/x86/shell_reverse_tcp" "elf"
                                      "" 4444 deep_blob recursion_error initial_world).
    exact (merged_options_rejected deep_env (Tools.payload_options "" 4444) Hne Hl).
  - vm_compute. discriminate.
Qed.

(** The requests of [run_exploit] once the options are merged. *)
Lemma run_exploit_posts (E : env) (exploit_name rhosts payload lhost : string)
      (lport : Z) (additional_options : string) (run_check : bool)
      (options : dict) (w : world) :
  merged_options E (Tools.exploit_options rhosts payload lhost lport)
                 additional_options = Ok (inl options) ->
  exists new,
    sent (snd (Tools.run_exploit E exploit_name rhosts payload lhost lport
                                 additional_options run_check w))
    = (sent w ++ new)%list /\
    Forall (login_or_options E options) new /\
    Exists (fun r => options_of r = Some (JObj options)) new.
Proof.
  intros Hm.
  pose proof (run_exploit_cases E exploit_name rhosts payload lhost lport
                                additional_options run_check w) as H.
  cbv zeta in H. rewrite Hm in H. unfold check_params in H.
  assert (Hp : [("module", JStr exploit_name); ("options", JObj options)] <> [])
    by discriminate.
  pose proof (check_params_options exploit_name options) as Ho.
  destruct H as [(Hrc & t & Hout & _) | (r & w' & Hc & Hout)]; rewrite Hout; cbn [snd].
  - subst run_check.
    destruct (call_rpc_posts E "module.check" w Hp Ho) as (new & Hs & _ & Hf & Hx & _).
    exists new. auto.
  - replace w' with (snd (MetasploitClient.call_rpc E "module.execute"
                            (JObj [("module", JStr exploit_name);
                                   ("options", JObj options)])
                            (if run_check
                             then snd (MetasploitClient.call_rpc E "module.check"
                                         (JObj [("module", JStr exploit_name);
                                                ("options", JObj options)]) w)
                             else w))) by now rewrite Hc.
    destruct run_check.
    + destruct (call_rpc_posts E "module.check" w Hp Ho) as (n1 & Hs1 & _ & Hf1 & Hx1 & _).
      destruct (call_rpc_posts E "module.execute"
                  (snd (MetasploitClient.call_rpc E "module.check"
                          (JObj [("module", JStr exploit_name);
                                 ("options", JObj options)]) w)) Hp Ho)
        as (n2 & Hs2 & _ & Hf2 & Hx2 & _).
      exists (n1 ++ n2)%list. rewrite Hs2, Hs1, app_assoc.
      split; [reflexivity|]. split.
      * apply Forall_app. now split.
      * apply Exists_app. now left.
    + destruct (call_rpc_posts E "module.execute" w Hp Ho) as (new & Hs & _ & Hf & Hx & _).
      exists new. auto.
Qed.

(** The requests of [generate_payload]: those of its one [call_rpc]. *)
Lemma generate_payload_sent (E : env) (payload_name format_type lhost : string)
      (lport : Z) (additional_options : string) (options : dict) (w : world) :
  merged_options E (Tools.payload_options lhost lport) additional_options
  = Ok (inl options) ->
  sent (snd (Tools.generate_payload E payload_name format_type lhost lport
                                    additional_options w))
  = sent (snd (MetasploitClient.call_rpc E "module.execute"
                 (generate_params payload_name format_type options) w)).
Proof.
  intros Hm. unfold Tools.generate_payload, bind, try_except, ret, lift.
  rewrite merge_additional_pure, Hm.
  unfold MetasploitClient.generate_payload.
  fold (generate_params payload_name format_type options).
  rewrite call_rpc_spec. cbn [fst snd].
  destruct (py_in "result" (classify _)) as [[|]|e]; cbn; try reflexivity.
  unfold os_makedirs, open_wb, f_write, any_exception.
  repeat match goal with
         | |- context [if ?b then _ else _] => destruct b; cbn
         | |- context [match os_error ?e ?c ?d ?f with _ => _ end] =>
             destruct (os_error e c d f); cbn
         | |- context [match py_getitem ?a ?b with _ => _ end] =>
             destruct (py_getitem a b); cbn
         | |- context [match get_data ?a with _ => _ end] =>
             destruct (get_data a) as [[|]|]; cbn
         end; reflexivity.
Qed.

(** C4.  When [additional_options] parses to a mapping, the options of
    run-exploit and of generate-payload are the explicit ones merged with
    the mapping, last write wins: a key of the mapping has the mapping's
    value, whether or not an explicit parameter set it, and every other key
    keeps its explicit value.  Every request the tool posts, the login
    apart, carries exactly these options, and at least one request does. *)
Theorem override_keys_win_in_options_sent
        (E : env) (exploit_name rhosts payload lhost : string) (lport : Z)
        (run_check : bool) (payload_name format_type p_lhost : string)
        (p_lport : Z) (additional_options : string) (extra : dict) (w : world) :
  additional_options <> "" ->
  json_loads E additional_options = Ok (JObj extra) ->
  NoDup (map fst extra) ->
  (forall (explicit : dict) (k : string),
      dict_get k (dict_merge explicit extra) =
      match dict_get k extra with
      | Some v => Some v
      | None => dict_get k explicit
      end)
  /\ (exists new,
         sent (snd (Tools.run_exploit E exploit_name rhosts payload lhost lport
                                      additional_options run_check w))
         = (sent w ++ new)%list /\
         Forall (login_or_options E
                   (dict_merge (Tools.exploit_options rhosts payload lhost lport) extra))
                new /\
         Exists (fun r => options_of r =
                          Some (JObj (dict_merge
                                        (Tools.exploit_options rhosts payload lhost lport)
                                        extra)))
                new)
  /\ (exists new,
         sent (snd (Tools.generate_payload E payload_name format_type p_lhost p_lport
                                           additional_options w))
         = (sent w ++ new)%list /\
         Forall (login_or_options E
                   (dict_merge (Tools.payload_options p_lhost p_lport) extra))
                new /\
         Exists (fun r => options_of r =
                          Some (JObj (dict_merge
                                        (Tools.payload_options p_lhost p_lport)
                                        extra)))
                new).
Proof.
  intros Hne Hl Hnd. split; [|split].
  - intros explicit k. now apply dict_get_merge.
  - apply run_exploit_posts. now apply merged_options_mapping.
  - rewrite (generate_payload_sent E payload_name format_type p_lhost p_lport
               additional_options w
               (merged_options_mapping E (Tools.payload_options p_lhost p_lport)
                                       Hne Hl)).
    unfold generate_params.
    destruct (call_rpc_posts E "module.execute"
                (p := [("module", JStr payload_name);
                       ("options", JObj (dict_merge (Tools.payload_options p_lhost p_lport) extra));
                       ("datastore", JObj [("Format", JStr format_type)])])
                (options := dict_merge (Tools.payload_options p_lhost p_lport) extra)
                w) as (new & Hs & _ & Hf & Hx & _);
      [discriminate | reflexivity |].
    exists new. auto.
Qed.

(** C9.  send-session-command, kill-session and get-module-info always
    return the envelope of status success around whatever their RPC call
    answered, an Error envelope included.  run-exploit does the same as
    soon as it has posted its module.execute request. *)
Theorem action_tools_report_success_around_rpc_answer (E : env) :
  (forall session_id command w,
      exists r w',
        MetasploitClient.session_command E session_id command w = (Ok r, w') /\
        Tools.send_session_command E session_id command w
        = (Ok (json_dumps (JObj [("status", JStr "success");
                                 ("session_id", JNum session_id);
                                 ("command", JStr command);
                                 ("result", r)]) (Some 2)), w'))
  /\ (forall session_id w,
         exists r w',
           MetasploitClient.kill_session E session_id w = (Ok r, w') /\
           Tools.kill_session E session_id w
           = (Ok (json_dumps (JObj [("status", JStr "success");
                                    ("session_id", JNum session_id);
                                    ("result", r)]) (Some 2)), w'))
  /\ (forall module_name w,
         exists r w',
           MetasploitClient.call_rpc E "module.info"
             (JObj [("module", JStr module_name)]) w = (Ok r, w') /\
           Tools.get_module_info E module_name w
           = (Ok (json_dumps (JObj [("status", JStr "success");
                                    ("module", JStr module_name);
                                    ("info", r)]) (Some 2)), w'))
  /\ (forall exploit_name rhosts payload lhost lport additional_options
             run_check w new,
         sent (snd (Tools.run_exploit E exploit_name rhosts payload lhost lport
                                      additional_options run_check w))
         = (sent w ++ new)%list ->
         Exists (has_method "module.execute") new ->
         exists r,
           fst (Tools.run_exploit E exploit_name rhosts payload lhost lport
                                  additional_options run_check w)
           = Ok (json_dumps (JObj [("status", JStr "success");
                                   ("exploit", JStr exploit_name);
                                   ("target", JStr rhosts);
                                   ("result", r)]) (Some 2))).
Proof.
  split; [|split; [|split]].
  - intros session_id command w.
    unfold Tools.send_session_command, MetasploitClient.session_command,
      bind, try_except, ret.
    rewrite call_rpc_spec. eexists; eexists. split; reflexivity.
  - intros session_id w.
    unfold Tools.kill_session, MetasploitClient.kill_session,
      bind, try_except, ret.
    rewrite call_rpc_spec. eexists; eexists. split; reflexivity.
  - intros module_name w.
    unfold Tools.get_module_info, bind, try_except, ret.
    rewrite call_rpc_spec. eexists; eexists. split; reflexivity.
  - intros exploit_name rhosts payload lhost lport additional_options
           run_check w new Hs Hx.
    pose proof (run_exploit_cases E exploit_name rhosts payload lhost lport
                                  additional_options run_check w) as H.
    cbv zeta in H.
    destruct (merged_options E _ additional_options) as [[options|early]|e].
    + destruct H as [(Hrc & t & Hout & _) | (r & w' & _ & Hout)].
      * exfalso. subst run_check. rewrite Hout in Hs. cbn [snd] in Hs.
        assert (Hp : [("module", JStr exploit_name); ("options", JObj options)] <> [])
          by discriminate.
        destruct (call_rpc_posts E "module.check" w Hp
                    (check_params_options exploit_name options))
          as (n1 & Hs1 & Hm1 & _).
        unfold check_params in Hs. rewrite Hs1 in Hs.
        apply app_inv_head in Hs. subst n1.
        apply Exists_exists in Hx. destruct Hx as (r & Hin & Hr).
        rewrite Forall_forall in Hm1.
        exact (not_execute_login_or_check (Hm1 r Hin) Hr).
      * exists r. rewrite Hout. reflexivity.
    + exfalso. rewrite H in Hs. cbn [snd] in Hs.
      apply app_inv_nil in Hs. subst new. inversion Hx.
    + exfalso. rewrite H in Hs. cbn [snd] in Hs.
      apply app_inv_nil in Hs. subst new. inversion Hx.
Qed.

Lemma length_str_take (n : nat) (s : string) :
  String.length (str_take n s) = Nat.min n (String.length s).
Proof.
  revert s. induction n as [|n IH]; intros [|c s]; simpl; auto.
Qed.

(** A slice of a sequence holds the first entries, no more than asked. *)
Lemma py_len_slice (n : nat) (v first : json) (len : Z) :
  py_len v = Ok len ->
  py_slice_to n v = Ok first ->
  py_len first = Ok (Z.min (Z.of_nat n) len).
Proof.
  destruct v; simpl; try discriminate; intros Hl Hs;
    inversion Hl; inversion Hs; subst; simpl; f_equal.
  - rewrite length_str_take. lia.
  - rewrite length_firstn. lia.
Qed.

(** The body of the two list tools: count the whole answer, return its
    first fifty entries. *)
Lemma list_tool_envelope (key : string) (v : json) (t : text) :
  match py_len v with
  | Ok count =>
      match py_slice_to 50 v with
      | Ok first => Ok (json_dumps (JObj [("status", JStr "success");
                                          ("count", JNum count);
                                          (key, first)]) (Some 2))
      | Raise e => Ok (Tools.error_envelope e)
      end
  | Raise e => Ok (Tools.error_envelope e)
  end = Ok t ->
  field "status" t = Some (JStr "success") ->
  exists count first,
    py_len v = Ok count /\
    py_slice_to 50 v = Ok first /\
    t = json_dumps (JObj [("status", JStr "success");
                          ("count", JNum count);
                          (key, first)]) (Some 2) /\
    py_len first = Ok (Z.min 50 count).
Proof.
  intros Ht Hs.
  destruct (py_len v) as [count|e] eqn:El.
  - destruct (py_slice_to 50 v) as [first|e] eqn:Esl.
    + inversion Ht; subst t. exists count, first. repeat split.
      apply (py_len_slice 50 v El Esl).
    + inversion Ht; subst t. discriminate.
  - inversion Ht; subst t. discriminate.
Qed.

(** C10.  Whenever the facade answers list-exploits or list-payloads with
    its filtered list, the tool answers with status success, a count that
    is the length of the whole filtered list and an array that holds its
    first fifty entries, so min(50, count) of them: with more than fifty
    matches the count exceeds the number of entries returned.  Conversely,
    whenever one of the two tools answers with status success, its count
    and its array are the length and the first fifty entries of the
    filtered answer of the facade. *)
Theorem list_tools_count_all_but_return_fifty (E : env) :
  (forall search_term w l,
      fst (MetasploitClient.list_exploits E search_term w) = Ok (JArr l) ->
      fst (Tools.list_exploits E search_term w)
      = Ok (json_dumps (JObj [("status", JStr "success");
                              ("count", JNum (Z.of_nat (List.length l)));
                              ("exploits", JArr (firstn 50 l))]) (Some 2))
      /\ List.length (firstn 50 l) = Nat.min 50 (List.length l)
      /\ (50 < List.length l -> List.length (firstn 50 l) < List.length l)%nat)
  /\ (forall platform arch w l,
         fst (MetasploitClient.list_payloads E platform arch w) = Ok (JArr l) ->
         fst (Tools.list_payloads E platform arch w)
         = Ok (json_dumps (JObj [("status", JStr "success");
                                 ("count", JNum (Z.of_nat (List.length l)));
                                 ("payloads", JArr (firstn 50 l))]) (Some 2))
         /\ List.length (firstn 50 l) = Nat.min 50 (List.length l)
         /\ (50 < List.length l -> List.length (firstn 50 l) < List.length l)%nat)
  /\ (forall search_term w t,
         fst (Tools.list_exploits E search_term w) = Ok t ->
         field "status" t = Some (JStr "success") ->
         exists exploits count first,
           fst (MetasploitClient.list_exploits E search_term w) = Ok exploits /\
           py_len exploits = Ok count /\
           py_slice_to 50 exploits = Ok first /\
           field "count" t = Some (JNum count) /\
           field "exploits" t = Some first /\
           py_len first = Ok (Z.min 50 count) /\
           (50 < count -> Z.min 50 count < count))
  /\ (forall platform arch w t,
         fst (Tools.list_payloads E platform arch w) = Ok t ->
         field "status" t = Some (JStr "success") ->
         exists payloads count first,
           fst (MetasploitClient.list_payloads E platform arch w) = Ok payloads /\
           py_len payloads = Ok count /\
           py_slice_to 50 payloads = Ok first /\
           field "count" t = Some (JNum count) /\
           field "payloads" t = Some first /\
           py_len first = Ok (Z.min 50 count) /\
           (50 < count -> Z.min 50 count < count)).
Proof.
  split; [|split; [|split]].
  - intros search_term w l Hf.
    unfold Tools.list_exploits, bind, try_except, lift, ret, any_exception.
    destruct (MetasploitClient.list_exploits E search_term w) as [[v|e] w'];
      cbn [fst] in Hf; [|discriminate].
    inversion Hf; subst v. cbn [py_len py_slice_to fst].
    split; [reflexivity|]. rewrite length_firstn. split; lia.
  - intros platform arch w l Hf.
    unfold Tools.list_payloads, bind, try_except, lift, ret, any_exception.
    destruct (MetasploitClient.list_payloads E platform arch w) as [[v|e] w'];
      cbn [fst] in Hf; [|discriminate].
    inversion Hf; subst v. cbn [py_len py_slice_to fst].
    split; [reflexivity|]. rewrite length_firstn. split; lia.
  - intros search_term w t Ht Hs.
    unfold Tools.list_exploits, bind, try_except, lift, ret, any_exception in Ht.
    destruct (MetasploitClient.list_exploits E search_term w) as [[v|e] w'];
      cbn [fst] in *.
    + assert (Hb : match py_len v with
                   | Ok count =>
                       match py_slice_to 50 v with
                       | Ok first => Ok (json_dumps (JObj [("status", JStr "success");
                                                           ("count", JNum count);
                                                           ("exploits", first)]) (Some 2))
                       | Raise e => Ok (Tools.error_envelope e)
                       end
                   | Raise e => Ok (Tools.error_envelope e)
                   end = Ok t).
      { destruct (py_len v); [destruct (py_slice_to 50 v)|]; exact Ht. }
      destruct (list_tool_envelope "exploits" v Hb Hs)
        as (count & first & Hl & Hsl & -> & Hf).
      exists v, count, first. repeat split; auto. lia.
    + inversion Ht; subst t. discriminate.
  - intros platform arch w t Ht Hs.
    unfold Tools.list_payloads, bind, try_except, lift, ret, any_exception in Ht.
    destruct (MetasploitClient.list_payloads E platform arch w) as [[v|e] w'];
      cbn [fst] in *.
    + assert (Hb : match py_len v with
                   | Ok count =>
                       match py_slice_to 50 v with
                       | Ok first => Ok (json_dumps (JObj [("status", JStr "success");
                                                           ("count", JNum count);
                                                           ("payloads", first)]) (Some 2))
                       | Raise e => Ok (Tools.error_envelope e)
                       end
                   | Raise e => Ok (Tools.error_envelope e)
                   end = Ok t).
      { destruct (py_len v); [destruct (py_slice_to 50 v)|]; exact Ht. }
      destruct (list_tool_envelope "payloads" v Hb Hs)
        as (count & first & Hl & Hsl & -> & Hf).
      exists v, count, first. repeat split; auto. lia.
    + inversion Ht; subst t. discriminate.
Qed.

(** The gate on a check reply that is an object.  Without a result field
    the call goes on to the execution.  With a result that is an object it
    goes on only when the status is exactly exploitable; otherwise the tool
    stops with status check_failed and hands back the raw reply. *)
Lemma check_gate_on_object (E : env) (exploit_name : string) (options d : dict)
      (w : world) :
  fst (MetasploitClient.call_rpc E "module.check"
         (check_params exploit_name options) w) = Ok (JObj d) ->
  fst (Tools.check_gate E exploit_name options w) =
  match dict_get "result" d with
  | None => Ok None
  | Some (JObj r) =>
      if eq_str (match dict_get "status" r with Some s => s | None => JNull end)
                "exploitable"
      then Ok None
      else Ok (Some (json_dumps
                       (JObj [("status", JStr "check_failed");
                              ("message", JStr "Target is not vulnerable or check failed");
                              ("check_result", JObj d)]) None))
  | Some v => Raise (no_attribute v "get")
  end.
Proof.
  intros H. destruct (call_rpc_answer _ _ _ _ H) as [w' Hc].
  unfold Tools.check_gate. fold (check_params exploit_name options). run.
  rewrite Hc. cbn [py_in py_getitem]. unfold dict_mem.
  destruct (dict_get "result" d) as [r|]; [|reflexivity].
  destruct r as [| b | n | s | l | r]; try reflexivity.
  cbn. destruct (eq_str _ "exploitable"); reflexivity.
Qed.

(** X25.  generate-payload on a reply that is an object without a result
    field, an Error envelope for one: the generation-failure envelope
    around the reply, and no directory or file is made. *)
Lemma generate_payload_without_result
      (E : env) (payload_name format_type lhost : string) (lport : Z)
      (additional_options : string) (options d : dict) (w : world) :
  merged_options E (Tools.payload_options lhost lport) additional_options
  = Ok (inl options) ->
  fst (MetasploitClient.call_rpc E "module.execute"
         (generate_params payload_name format_type options) w) = Ok (JObj d) ->
  dict_get "result" d = None ->
  let out := Tools.generate_payload E payload_name format_type lhost lport
                                    additional_options w in
  fst out = Ok (json_dumps (JObj [("status", JStr "error");
                                  ("message", JStr "Payload generation failed");
                                  ("result", JObj d)]) None)
  /\ files (snd out) = files w /\ dirs (snd out) = dirs w.
Proof.
  intros Hm H Hr. cbv zeta. unfold generate_params in H.
  unfold Tools.generate_payload, MetasploitClient.generate_payload. run.
  rewrite merge_additional_pure, Hm.
  rewrite call_rpc_spec in H |- *. cbn [fst] in H. injection H as H.
  rewrite H. cbn [py_in]. unfold dict_mem. rewrite Hr. cbn.
  unfold before_request, after_connect.
  destruct (truthy (token w)); [now repeat split|].
  destruct (granted_token _); now repeat split.
Qed.

(** C1: the code at a failing input.  run-exploit is called with
    run_check true and the remote end answers every request with HTTP 500.
    The check call returns the Error envelope HTTP 500, which has no result
    field, so the gate lets the call through: module.execute is posted and
    the tool reports success, where the claim requires check_failed and no
    execution. *)
Theorem run_exploit_executes_after_failed_check :
  let E := mock (http 500 JNull) in
  let out := Tools.run_exploit E "exploit/windows/smb/ms17_010_eternalblue"
                               "10.0.0.1" "" "" 4444 "" true initial_world in
  fst (MetasploitClient.call_rpc E "module.check"
         (check_params "exploit/windows/smb/ms17_010_eternalblue"
                       [("RHOSTS", JStr "10.0.0.1"); ("LPORT", JStr "4444")])
         initial_world)
  = Ok (error_reply "HTTP 500")
  /\ fst out = Ok (exploit_success "exploit/windows/smb/ms17_010_eternalblue"
                                   "10.0.0.1" (error_reply "HTTP 500"))
  /\ field "status" (exploit_success "exploit/windows/smb/ms17_010_eternalblue"
                                     "10.0.0.1" (error_reply "HTTP 500"))
     = Some (JStr "success")
  /\ methods (snd out) = [Some (JStr "login"); Some (JStr "module.check");
                          Some (JStr "login"); Some (JStr "module.execute")].
Proof.
  repeat split.
Qed.

(** C7: the code at a failing input.  The reply to generate-payload has a
    result field that carries the payload under data, a string as every
    JSON text is.  The file is opened, and so created empty, but writing a
    [str] to a file opened in binary mode raises a TypeError: the tool
    returns an envelope of status error, with no path, where the claim
    requires a success envelope reporting the path. *)
Theorem generate_payload_fails_on_returned_data :
  let E := mock (ok_200 (JObj [("result", JObj [("data", JStr "TVqQAAMAAAAEAAAA")])])) in
  let out := Tools.generate_payload E "windows/meterpreter/reverse_tcp" "exe"
                                    "" 4444 "" initial_world in
  fst out = Ok (json_dumps
                  (JObj [("status", JStr "error");
                         ("message", JStr "a bytes-like object is required, not 'str'")])
                  None)
  /\ files (snd out) = [("./payloads/windows_meterpreter_reverse_tcp.exe", [])]
  /\ dirs (snd out) = ["./payloads"].
Proof.
  repeat split.
Qed.

(* ================================================================== *)
(** ** The claims at concrete inputs *)

(** C8 on the example of the specification: the term smb keeps the SMB
    module and drops the FTP one. *)
Lemma list_exploits_filters_by_substring_witness :
  let E := mock (ok_200 (JObj [("result", JArr two_exploits)])) in
  fst (MetasploitClient.call_rpc E "module.exploits" JNull initial_world)
  = Ok (JObj [("result", JArr two_exploits)])
  /\ fst (MetasploitClient.list_exploits E "smb" initial_world)
     = Ok (JArr [JStr "exploit/windows/smb/ms17_010"]).
Proof.
  split; [reflexivity|].
  exact (proj1 (list_exploits_filters_by_substring
                  (mock (ok_200 (JObj [("result", JArr two_exploits)])))
                  "smb" initial_world
                  (body := [("result", JArr two_exploits)]) eq_refl)).
Defined.

(** C2 on the example of the specification: two sessions, each with its
    id merged into its attributes. *)
Lemma list_sessions_merges_id_under_attributes_witness :
  let E := mock (ok_200 (JObj [("result", JObj two_sessions)])) in
  exists elems,
    fst (MetasploitClient.list_sessions E initial_world) = Ok (map JObj elems) /\
    Forall2 (fun kv d =>
               forall a, dict_get a d =
                         match dict_get a (attrs_of (snd kv)) with
                         | Some v => Some v
                         | None => if String.eqb a "id"
                                   then Some (JStr (fst kv)) else None
                         end)
            two_sessions elems.
Proof.
  apply (list_sessions_merges_id_under_attributes
           (mock (ok_200 (JObj [("result", JObj two_sessions)])))
           initial_world
           (body := [("result", JObj two_sessions)])
           (entries := two_sessions)).
  - reflexivity.
  - reflexivity.
  - constructor; [|constructor; [|constructor]].
    + exists [("type", JStr "shell")]. split; [reflexivity|].
      constructor; [intros []|constructor].
    + exists [("type", JStr "meterpreter")]. split; [reflexivity|].
      constructor; [intros []|constructor].
Defined.

(** C3 at a blob that is not JSON. *)
Lemma invalid_json_aborts_before_any_rpc_witness :
  let E := mock (http 500 JNull) in
  Tools.run_exploit E "exploit/unix/ftp" "10.0.0.1" "" "" 4444 "{LPORT" true
                    initial_world
  = (Ok (json_dumps (JObj [("status", JStr "error");
                           ("message", JStr "Invalid JSON in additional_options")])
                    None), initial_world)
  /\ Tools.generate_payload E "linux/x86/shell_reverse_tcp" "elf" "" 4444 "{LPORT"
                            initial_world
     = (Ok (json_dumps (JObj [("status", JStr "error");
                              ("message", JStr "Invalid JSON in additional_options")])
                       None), initial_world).
Proof.
  apply (invalid_json_aborts_before_any_rpc
           (mock (http 500 JNull)) "exploit/unix/ftp" "10.0.0.1" "" "" 4444 true
           "linux/x86/shell_reverse_tcp" "elf" "" 4444
           (additional_options := "{LPORT") (e := decode_error) initial_world).
  - discriminate.
  - reflexivity.
Defined.

(** C4 on the example of the specification: explicit lport 4444 and the
    override LPORT 5555 give LPORT 5555. *)
Lemma override_keys_win_in_options_sent_witness :
  dict_get "LPORT" (Tools.exploit_options "10.0.0.1" "" "" 4444)
  = Some (JStr "4444")
  /\ dict_get "LPORT" (dict_merge (Tools.exploit_options "10.0.0.1" "" "" 4444)
                                  [("LPORT", JStr "5555")])
     = Some (JStr "5555").
Proof.
  split; [reflexivity|].
  refine (proj1 (override_keys_win_in_options_sent
                   lport_env "exploit/unix/ftp" "10.0.0.1" "" "" 4444 false
                   "linux/x86/shell_reverse_tcp" "elf" "" 4444
                   (additional_options := lport_blob)
                   (extra := [("LPORT", JStr "5555")]) initial_world _ _ _)
                (Tools.exploit_options "10.0.0.1" "" "" 4444) "LPORT").
  - vm_compute. discriminate.
  - reflexivity.
  - constructor; [intros []|constructor].
Defined.

(** C9 at a remote end that answers HTTP 500: run-exploit without check
    posts module.execute and reports success around the Error envelope. *)
Lemma action_tools_report_success_around_rpc_answer_witness :
  let E := mock (http 500 JNull) in
  exists r,
    fst (Tools.run_exploit E "exploit/unix/ftp" "10.0.0.1" "" "" 4444 "" false
                           initial_world)
    = Ok (json_dumps (JObj [("status", JStr "success");
                            ("exploit", JStr "exploit/unix/ftp");
                            ("target", JStr "10.0.0.1");
                            ("result", r)]) (Some 2)).
Proof.
  apply (proj2 (proj2 (proj2 (action_tools_report_success_around_rpc_answer
                                (mock (http 500 JNull)))))
           "exploit/unix/ftp" "10.0.0.1" "" "" 4444 "" false initial_world
           [login_request (mock (http 500 JNull));
            rpc_request (mock (http 500 JNull)) "module.execute"
                        (check_params "exploit/unix/ftp"
                                      [("RHOSTS", JStr "10.0.0.1");
                                       ("LPORT", JStr "4444")]) JNull]).
  - reflexivity.
  - apply Exists_cons_tl. apply Exists_cons_hd. reflexivity.
Defined.

(** C10 at sixty names, for both tools: the count is 60 and 50 entries are
    returned. *)
Lemma list_tools_count_all_but_return_fifty_witness :
  let E := mock (ok_200 (JObj [("result", JArr sixty_names)])) in
  fst (MetasploitClient.list_exploits E "" initial_world) = Ok (JArr sixty_names)
  /\ fst (MetasploitClient.list_payloads E "" "" initial_world) = Ok (JArr sixty_names)
  /\ fst (Tools.list_exploits E "" initial_world)
     = Ok (json_dumps (JObj [("status", JStr "success");
                             ("count", JNum 60);
                             ("exploits", JArr (firstn 50 sixty_names))]) (Some 2))
  /\ fst (Tools.list_payloads E "" "" initial_world)
     = Ok (json_dumps (JObj [("status", JStr "success");
                             ("count", JNum 60);
                             ("payloads", JArr (firstn 50 sixty_names))]) (Some 2))
  /\ (exists payloads count first,
        fst (MetasploitClient.list_payloads E "" "" initial_world) = Ok payloads /\
        py_len payloads = Ok count /\
        py_slice_to 50 payloads = Ok first /\
        Some (JNum 60) = Some (JNum count) /\
        Some (JArr (firstn 50 sixty_names)) = Some first /\
        py_len first = Ok (Z.min 50 count) /\
        (50 < count -> Z.min 50 count < count)).
Proof.
  cbv zeta.
  pose proof (list_tools_count_all_but_return_fifty
                (mock (ok_200 (JObj [("result", JArr sixty_names)]))))
    as (Hx & Hp & _ & Hq).
  split; [reflexivity|]. split; [reflexivity|].
  split; [exact (proj1 (Hx "" initial_world sixty_names eq_refl))|].
  split; [exact (proj1 (Hp "" "" initial_world sixty_names eq_refl))|].
  exact (Hq "" "" initial_world _ eq_refl eq_refl).
Defined.

(* ================================================================== *)
(** ** Further properties: the session and its token *)

(** X1.  With a token held, [call_rpc] posts exactly one request, to the
    API URL, carrying the method, the parameters (an empty mapping when
    none are given) and the token; it does not log in and leaves the token,
    the directories and the files as they were. *)
Theorem call_rpc_with_token_posts_one_request
        (E : env) (method : string) (params : json) (w : world) :
  truthy (token w) = true ->
  MetasploitClient.call_rpc E method params w =
  (Ok (classify (post E (sent w)
                      (Request (api_url E)
                               (payload_with_token method params (token w))))),
   with_sent (sent w ++ [Request (api_url E)
                                 (payload_with_token method params (token w))])
             w).
Proof. apply call_rpc_held. Qed.

(** X2.  Without a token, [call_rpc] logs in first; when the login grants
    a non-empty token, the request that follows carries it and the token is
    kept for later calls. *)
Theorem call_rpc_logs_in_and_uses_granted_token
        (E : env) (method : string) (params t : json) (w : world) :
  truthy (token w) = false ->
  granted_token (post E (sent w) (login_request E)) = Some t ->
  truthy t = true ->
  MetasploitClient.call_rpc E method params w =
  (Ok (classify (post E (sent w ++ [login_request E])
                      (Request (api_url E) (payload_with_token method params t)))),
   World t
         (sent w ++ [login_request E;
                     Request (api_url E) (payload_with_token method params t)])
         (dirs w) (files w)).
Proof. apply call_rpc_granted. Qed.

(** X3.  Without a token and with a login that grants none, [call_rpc]
    still posts its request, without any token field, after the login
    request; the token stays as it was. *)
Theorem call_rpc_posts_without_token_after_refused_login
        (E : env) (method : string) (params : json) (w : world) :
  truthy (token w) = false ->
  granted_token (post E (sent w) (login_request E)) = None ->
  MetasploitClient.call_rpc E method params w =
  (Ok (classify (post E (sent w ++ [login_request E])
                      (Request (api_url E) (payload_without_token method params)))),
   with_sent (sent w ++ [login_request E;
                         Request (api_url E) (payload_without_token method params)])
             w).
Proof. apply call_rpc_refused. Qed.

(** X4.  The session is reused: once a call has obtained a token, the next
    call posts its one request with that token and no second login. *)
Theorem second_call_reuses_token
        (E : env) (m1 m2 : string) (p1 p2 t : json) (w : world) :
  truthy (token w) = false ->
  granted_token (post E (sent w) (login_request E)) = Some t ->
  truthy t = true ->
  let w1 := snd (MetasploitClient.call_rpc E m1 p1 w) in
  sent (snd (MetasploitClient.call_rpc E m2 p2 w1)) =
  (sent w ++ [login_request E;
              Request (api_url E) (payload_with_token m1 p1 t);
              Request (api_url E) (payload_with_token m2 p2 t)])%list
  /\ token (snd (MetasploitClient.call_rpc E m2 p2 w1)) = t.
Proof.
  intros Hw Hg Ht. cbv zeta.
  rewrite (call_rpc_granted E m1 p1 w Hw Hg Ht).
  cbn [snd].
  rewrite call_rpc_held by exact Ht.
  cbn [snd sent token with_sent]. split; [|reflexivity].
  now rewrite <- app_assoc.
Qed.

(** X5.  A refused login is not remembered: against a remote end that
    never grants a token, every call logs in again, so two calls post four
    requests, and neither request carries a token. *)
Theorem refused_login_is_retried_on_every_call
        (E : env) (m1 m2 : string) (p1 p2 : json) (w : world) :
  truthy (token w) = false ->
  (forall history, granted_token (post E history (login_request E)) = None) ->
  let w1 := snd (MetasploitClient.call_rpc E m1 p1 w) in
  sent (snd (MetasploitClient.call_rpc E m2 p2 w1)) =
  (sent w ++ [login_request E;
              Request (api_url E) (payload_without_token m1 p1);
              login_request E;
              Request (api_url E) (payload_without_token m2 p2)])%list.
Proof.
  intros Hw Hnever. cbv zeta.
  rewrite (call_rpc_refused E m1 p1 w Hw (Hnever _)).
  cbn [snd].
  rewrite call_rpc_refused; [|exact Hw|apply Hnever].
  cbn [snd sent with_sent]. now rewrite <- app_assoc.
Qed.

(** X6.  A granted token that is empty (or otherwise false) is stored and
    [connect] answers success, yet the session counts as unauthenticated:
    the request of the same call carries no token. *)
Theorem empty_granted_token_leaves_session_unauthenticated
        (E : env) (method : string) (params t : json) (w : world) :
  truthy (token w) = false ->
  granted_token (post E (sent w) (login_request E)) = Some t ->
  truthy t = false ->
  fst (MetasploitClient.connect E w) = Ok true /\
  token (snd (MetasploitClient.connect E w)) = t /\
  sent (snd (MetasploitClient.call_rpc E method params w)) =
  (sent w ++ [login_request E;
              Request (api_url E) (payload_without_token method params)])%list.
Proof.
  intros Hw Hg Ht. rewrite connect_spec, call_rpc_spec.
  unfold before_request, after_connect. rewrite Hw, Hg.
  cbn [fst snd token sent with_token with_sent].
  rewrite rpc_request_without_token by exact Ht.
  repeat split. now rewrite <- app_assoc.
Qed.

(* ================================================================== *)
(** ** Further properties: the list operations *)

Lemma filter_by_strings (term : string) (names : list string) :
  filter_by term (JArr (map JStr names))
  = Ok (JArr (map JStr (filter (icontains term) names))).
Proof. unfold filter_by. cbn [py_iter]. now rewrite keep_matching_strings. Qed.

Lemma icontains_empty (e : string) : icontains "" e = true.
Proof. unfold icontains. cbn [lower]. now destruct (lower e). Qed.

Lemma filter_all {A} (f : A -> bool) (l : list A) :
  (forall x, f x = true) -> filter f l = l.
Proof.
  intros H. induction l as [|x l IH]; simpl; [reflexivity|].
  now rewrite H, IH.
Qed.

Lemma filter_twice {A} (f g : A -> bool) (l : list A) :
  filter g (filter f l) = filter (fun x => f x && g x) l.
Proof.
  induction l as [|x l IH]; simpl; [reflexivity|].
  destruct (f x); simpl; [destruct (g x)|]; now rewrite IH.
Qed.

Lemma filter_when (term : string) (names : list string) :
  (if nonempty term then filter (icontains term) names else names)
  = filter (icontains term) names.
Proof.
  unfold nonempty. destruct (String.eqb term "") eqn:Et; [|reflexivity].
  apply String.eqb_eq in Et. subst term. cbn [negb].
  symmetry. apply filter_all, icontains_empty.
Qed.

(** X7.  [list_payloads] applies both filters together: from a result that
    is a list of names it keeps, in order, the names that contain the
    platform and the architecture, case folded; an empty filter keeps
    every name.  A reply without a result field gives the empty list. *)
Theorem list_payloads_filters_conjunctively
        (E : env) (platform arch : string) (w : world) (body : dict) :
  fst (MetasploitClient.call_rpc E "module.payloads" JNull w) = Ok (JObj body) ->
  match dict_get "result" body with
  | None => fst (MetasploitClient.list_payloads E platform arch w) = Ok (JArr [])
  | Some (JArr l) =>
      match strings_of l with
      | Some names =>
          fst (MetasploitClient.list_payloads E platform arch w)
          = Ok (JArr (map JStr
                          (filter (fun e => icontains platform e && icontains arch e)
                                  names)))
      | None => True
      end
  | Some _ => True
  end.
Proof.
  intros H. destruct (call_rpc_answer _ _ _ _ H) as [w' Hc].
  unfold MetasploitClient.list_payloads, bind, lift, ret. rewrite Hc.
  cbn [py_in]. unfold dict_mem.
  destruct (dict_get "result" body) as [r|] eqn:Er; [|reflexivity].
  destruct r; auto.
  destruct (strings_of l) as [names|] eqn:Es; auto.
  cbn [py_getitem]. rewrite Er.
  apply strings_of_map in Es. subst l.
  rewrite <- filter_twice, <- (filter_when platform names).
  destruct (nonempty platform).
  - rewrite filter_by_strings.
    rewrite <- (filter_when arch (filter (icontains platform) names)).
    destruct (nonempty arch); [|reflexivity].
    cbn [fst]. now rewrite filter_by_strings.
  - rewrite <- (filter_when arch names).
    destruct (nonempty arch); [|reflexivity].
    cbn [fst]. now rewrite filter_by_strings.
Qed.

Lemma lower_empty (t : string) : lower t = "" -> t = "".
Proof. destruct t; [reflexivity|discriminate]. Qed.

Lemma nonempty_lower (t1 t2 : string) :
  lower t1 = lower t2 -> nonempty t1 = nonempty t2.
Proof.
  intros H. unfold nonempty.
  destruct t1, t2; try reflexivity; discriminate.
Qed.

Lemma keep_matching_lower (t1 t2 : string) (l : list json) :
  lower t1 = lower t2 -> keep_matching t1 l = keep_matching t2 l.
Proof.
  intros H. induction l as [|e l IH]; simpl; [reflexivity|].
  now rewrite IH, H.
Qed.

(** X8.  The search term of [list_exploits] is case-insensitive: two terms
    that differ only in case give the same answer and the same world,
    whatever the remote end replies. *)
Theorem list_exploits_ignores_case_of_term
        (E : env) (t1 t2 : string) (w : world) :
  lower t1 = lower t2 ->
  MetasploitClient.list_exploits E t1 w = MetasploitClient.list_exploits E t2 w.
Proof.
  intros H. unfold MetasploitClient.list_exploits, bind, lift, ret.
  destruct (MetasploitClient.call_rpc E "module.exploits" JNull w) as [[v|e] w'];
    [|reflexivity].
  destruct (py_in "result" v) as [[|]|e]; try reflexivity.
  destruct (py_getitem v "result") as [x|e]; [|reflexivity].
  rewrite (nonempty_lower _ _ H).
  destruct (nonempty t2); [|reflexivity].
  unfold filter_by. destruct (py_iter x) as [l|e]; [|reflexivity].
  now rewrite (keep_matching_lower _ _ l H).
Qed.

(** X9.  A failed RPC is silent in the three list tools: when the reply is
    an object without a result field, an Error envelope for one, each tool
    answers status success with count 0 and an empty list. *)
Theorem list_tools_report_success_on_error_reply (E : env) (w : world) :
  (forall search_term body,
      fst (MetasploitClient.call_rpc E "module.exploits" JNull w) = Ok (JObj body) ->
      dict_get "result" body = None ->
      fst (Tools.list_exploits E search_term w)
      = Ok (json_dumps (JObj [("status", JStr "success"); ("count", JNum 0);
                              ("exploits", JArr [])]) (Some 2)))
  /\ (forall platform arch body,
         fst (MetasploitClient.call_rpc E "module.payloads" JNull w) = Ok (JObj body) ->
         dict_get "result" body = None ->
         fst (Tools.list_payloads E platform arch w)
         = Ok (json_dumps (JObj [("status", JStr "success"); ("count", JNum 0);
                                 ("payloads", JArr [])]) (Some 2)))
  /\ (forall body,
         fst (MetasploitClient.call_rpc E "session.list" JNull w) = Ok (JObj body) ->
         dict_get "result" body = None ->
         fst (Tools.list_sessions E w)
         = Ok (json_dumps (JObj [("status", JStr "success"); ("count", JNum 0);
                                 ("sessions", JArr [])]) (Some 2))).
Proof.
  split; [|split].
  - intros search_term body H Hr. destruct (call_rpc_answer _ _ _ _ H) as [w' Hc].
    unfold Tools.list_exploits, MetasploitClient.list_exploits. run.
    rewrite Hc. cbn [py_in]. unfold dict_mem. now rewrite Hr.
  - intros platform arch body H Hr. destruct (call_rpc_answer _ _ _ _ H) as [w' Hc].
    unfold Tools.list_payloads, MetasploitClient.list_payloads. run.
    rewrite Hc. cbn [py_in]. unfold dict_mem. now rewrite Hr.
  - intros body H Hr. destruct (call_rpc_answer _ _ _ _ H) as [w' Hc].
    unfold Tools.list_sessions, MetasploitClient.list_sessions. run.
    rewrite Hc. cbn [py_in]. unfold dict_mem. now rewrite Hr.
Qed.

(** X10.  list-sessions has no cap: for a result that maps ids to
    attribute mappings it answers success with one session per entry, in
    order, each being the attribute mapping of the entry with its id under
    the key id (an id among the attributes wins), and a count equal to the
    number of entries, however many there are. *)
Theorem list_sessions_tool_returns_every_session
        (E : env) (w : world) (body : dict) (entries : list (string * json)) :
  fst (MetasploitClient.call_rpc E "session.list" JNull w) = Ok (JObj body) ->
  dict_get "result" body = Some (JObj entries) ->
  Forall (fun kv => exists attrs, snd kv = JObj attrs /\ NoDup (map fst attrs)) entries ->
  let sessions :=
    map (fun kv => JObj (dict_merge [("id", JStr (fst kv))] (attrs_of (snd kv))))
        entries in
  fst (Tools.list_sessions E w)
  = Ok (json_dumps (JObj [("status", JStr "success");
                          ("count", JNum (Z.of_nat (List.length entries)));
                          ("sessions", JArr sessions)]) (Some 2))
  /\ List.length sessions = List.length entries.
Proof.
  intros H Hr Hall. destruct (call_rpc_answer _ _ _ _ H) as [w' Hc]. cbv zeta.
  unfold Tools.list_sessions, MetasploitClient.list_sessions. run.
  rewrite Hc. cbn [py_in py_getitem]. unfold dict_mem. rewrite Hr.
  cbn [py_items]. rewrite (with_ids_mappings Hall). cbn [fst].
  rewrite length_map. split; reflexivity.
Qed.

Lemma with_ids_not_mapping (entries : list (string * json)) :
  Exists (fun kv => match snd kv with JObj _ => False | _ => True end) entries ->
  exists e, MetasploitClient.with_ids entries = Raise e /\ exn_cls e = TypeError.
Proof.
  induction 1 as [[k v] entries Hv|[k v] entries _ (e & IH & He)]; simpl.
  - simpl in Hv. destruct v; try contradiction; eexists; split; reflexivity.
  - destruct (dict_with_id k v) as [d|e'] eqn:Ed.
    + rewrite IH. now exists e.
    + exists e'. split; [reflexivity|].
      destruct v; inversion Ed; reflexivity.
Qed.

(** X11.  One malformed session spoils the listing: when the attributes of
    any entry are not a mapping, list-sessions answers status error (a
    TypeError) and returns no session at all. *)
Theorem list_sessions_tool_fails_on_one_bad_entry
        (E : env) (w : world) (body : dict) (entries : list (string * json)) :
  fst (MetasploitClient.call_rpc E "session.list" JNull w) = Ok (JObj body) ->
  dict_get "result" body = Some (JObj entries) ->
  Exists (fun kv => match snd kv with JObj _ => False | _ => True end) entries ->
  exists e,
    exn_cls e = TypeError /\
    fst (MetasploitClient.list_sessions E w) = Raise e /\
    fst (Tools.list_sessions E w) = Ok (Tools.error_envelope e).
Proof.
  intros H Hr Hex. destruct (call_rpc_answer _ _ _ _ H) as [w' Hc].
  destruct (with_ids_not_mapping Hex) as (e & He & Hcls).
  exists e. split; [exact Hcls|].
  unfold Tools.list_sessions, MetasploitClient.list_sessions. run.
  rewrite Hc. cbn [py_in py_getitem]. unfold dict_mem. rewrite Hr.
  cbn [py_items]. rewrite He. split; reflexivity.
Qed.

(* ================================================================== *)
(** ** Further properties: run-exploit *)

Lemma merged_options_early (E : env) (options : dict) (additional_options : string)
      (early : text) :
  merged_options E options additional_options = Ok (inr early) ->
  early = Tools.invalid_json.
Proof.
  unfold merged_options, Tools.merge_additional.
  destruct (nonempty additional_options); [|discriminate]. run.
  destruct (json_loads E additional_options) as [extra|e].
  - destruct (dict_update options extra) as [o|e]; [discriminate|].
    destruct (is_json_decode_error e); cbn; intros H; now inversion H.
  - destruct (is_json_decode_error e); cbn; intros H; now inversion H.
Qed.

(** The gate is a function of the reply to module.check. *)
Lemma check_gate_answer (E : env) (exploit_name : string) (options : dict)
      (w : world) :
  Tools.check_gate E exploit_name options w =
  (gate_of (classify (post E (sent (before_request E w))
                           (rpc_request E "module.check"
                                        (check_params exploit_name options)
                                        (token (before_request E w))))),
   snd (MetasploitClient.call_rpc E "module.check"
          (check_params exploit_name options) w)).
Proof.
  unfold Tools.check_gate. fold (check_params exploit_name options). run.
  rewrite call_rpc_spec. cbn [snd]. unfold gate_of.
  destruct (classify _) as [| b | n | s | l | d]; cbn; try reflexivity.
  - destruct (str_in "result" s); reflexivity.
  - destruct (existsb _ l); reflexivity.
  - unfold dict_mem. destruct (dict_get "result" d) as [r|]; cbn; [|reflexivity].
    destruct r as [| b | n | s | l | r]; cbn; try reflexivity.
    destruct (eq_str _ "exploitable"); reflexivity.
Qed.

Lemma call_rpc_eval (E : env) (method : string) (params : json) (w : world) :
  MetasploitClient.call_rpc E method params w =
  (Ok (rpc_reply E method params w), rpc_world E method params w).
Proof. apply call_rpc_spec. Qed.

(** [run_exploit] as a function of the merged options and of the replies. *)
Lemma run_exploit_eval (E : env) (exploit_name rhosts payload lhost : string)
      (lport : Z) (additional_options : string) (run_check : bool) (w : world) :
  Tools.run_exploit E exploit_name rhosts payload lhost lport
                    additional_options run_check w =
  match merged_options E (Tools.exploit_options rhosts payload lhost lport)
                       additional_options with
  | Raise e => (Ok (Tools.error_envelope e), w)
  | Ok (inr early) => (Ok early, w)
  | Ok (inl options) =>
      if run_check then
        let w1 := rpc_world E "module.check" (check_params exploit_name options) w in
        match gate_of (rpc_reply E "module.check"
                                 (check_params exploit_name options) w) with
        | Raise e => (Ok (Tools.error_envelope e), w1)
        | Ok (Some t) => (Ok t, w1)
        | Ok None => then_execute E exploit_name rhosts options w1
        end
      else then_execute E exploit_name rhosts options w
  end.
Proof.
  unfold Tools.run_exploit. run. rewrite merge_additional_pure.
  destruct (merged_options E _ additional_options) as [[options|early]|e];
    try reflexivity.
  unfold then_execute, MetasploitClient.execute_exploit.
  fold (check_params exploit_name options).
  destruct run_check.
  - rewrite check_gate_answer, call_rpc_eval. cbn [snd]. fold (rpc_reply E "module.check" (check_params exploit_name options) w).
    destruct (gate_of _) as [[t|]|e]; try reflexivity.
    now rewrite call_rpc_eval.
  - now rewrite call_rpc_eval.
Qed.

Lemma gate_of_stops (check_result : json) (t : text) :
  gate_of check_result = Ok (Some t) -> t = check_failed_envelope check_result.
Proof.
  unfold gate_of.
  destruct (py_in "result" check_result) as [[|]|e]; try discriminate.
  destruct (py_getitem check_result "result") as [r|e]; [|discriminate].
  destruct (py_get r "status") as [s|e]; [|discriminate].
  destruct (eq_str s "exploitable"); [discriminate|].
  intros H. now inversion H.
Qed.

Lemma gate_of_object (d : dict) (v : json) :
  dict_get "result" d = Some v ->
  gate_of (JObj d) =
  match v with
  | JObj r => if exploitable v then Ok None
              else Ok (Some (check_failed_envelope (JObj d)))
  | _ => Raise (no_attribute v "get")
  end.
Proof.
  intros H. unfold gate_of. cbn [py_in py_getitem]. unfold dict_mem. rewrite H.
  destruct v as [| b | n | s | l | r]; try reflexivity.
  cbn [py_get exploitable]. destruct (dict_get "status" r); reflexivity.
Qed.

Lemma known_status_error (e : exn) : known_status (Tools.error_envelope e).
Proof. right; left. reflexivity. Qed.

Lemma rpc_world_sent (E : env) (method : string) (params : json) (w : world) :
  exists pre,
    (pre = [] \/ pre = [login_request E]) /\
    sent (rpc_world E method params w) =
    (sent w ++ pre ++ [rpc_request E method params (token (before_request E w))])%list.
Proof.
  unfold rpc_world. cbn [sent with_sent].
  destruct (sent_before_request E w) as [Hs|Hs]; rewrite Hs.
  - exists []. split; [now left|reflexivity].
  - exists [login_request E]. split; [now right|]. now rewrite <- app_assoc.
Qed.

Lemma rpc_world_methods (E : env) (method : string) (params : json) (w : world) :
  exists new,
    sent (rpc_world E method params w) = (sent w ++ new)%list /\
    Forall (fun r => has_method "login" r \/ has_method method r) new.
Proof.
  destruct (rpc_world_sent E method params w) as (pre & Hpre & Hs).
  exists (pre ++ [rpc_request E method params (token (before_request E w))])%list.
  split; [exact Hs|].
  apply Forall_app. split.
  - destruct Hpre as [-> | ->]; constructor; [now left|constructor].
  - constructor; [right; apply method_of_rpc|constructor].
Qed.

(** X12.  run-exploit without the check posts no module.check: once the
    options are merged it posts the one module.execute request, after a
    login when no token was held, and answers success around its reply. *)
Theorem run_exploit_without_check_posts_only_execute
        (E : env) (exploit_name rhosts payload lhost : string) (lport : Z)
        (additional_options : string) (options : dict) (w : world) :
  merged_options E (Tools.exploit_options rhosts payload lhost lport)
                 additional_options = Ok (inl options) ->
  Tools.run_exploit E exploit_name rhosts payload lhost lport
                    additional_options false w
  = then_execute E exploit_name rhosts options w
  /\ exists pre,
      (pre = [] \/ pre = [login_request E]) /\
      sent (snd (Tools.run_exploit E exploit_name rhosts payload lhost lport
                                   additional_options false w))
      = (sent w ++ pre
         ++ [rpc_request E "module.execute" (check_params exploit_name options)
                         (token (before_request E w))])%list.
Proof.
  intros Hm. rewrite run_exploit_eval, Hm. split; [reflexivity|].
  unfold then_execute. cbn [snd]. apply rpc_world_sent.
Qed.

(** X13.  The gate opens on exploitable: with run_check set and a check
    reply whose result is a mapping with status exactly exploitable,
    run-exploit goes on to module.execute in the world the check left and
    answers success around the reply of the execution. *)
Theorem run_exploit_executes_when_check_says_exploitable
        (E : env) (exploit_name rhosts payload lhost : string) (lport : Z)
        (additional_options : string) (options d : dict) (v : json) (w : world) :
  merged_options E (Tools.exploit_options rhosts payload lhost lport)
                 additional_options = Ok (inl options) ->
  fst (MetasploitClient.call_rpc E "module.check"
         (check_params exploit_name options) w) = Ok (JObj d) ->
  dict_get "result" d = Some v ->
  exploitable v = true ->
  Tools.run_exploit E exploit_name rhosts payload lhost lport
                    additional_options true w
  = then_execute E exploit_name rhosts options
                 (snd (MetasploitClient.call_rpc E "module.check"
                         (check_params exploit_name options) w)).
Proof.
  intros Hm Hc Hr Hx. rewrite call_rpc_eval in Hc |- *. cbn [fst snd] in *.
  injection Hc as Hc.
  rewrite run_exploit_eval, Hm. cbv zeta. rewrite Hc, (gate_of_object d Hr).
  destruct v; try discriminate. now rewrite Hx.
Qed.

(** X14.  The gate stays shut otherwise: with run_check set and a check
    reply that has a result which is not a mapping of status exploitable,
    run-exploit stops in the world the check left.  It answers
    check_failed with the raw reply when the result is a mapping, and
    status error when it is not; no module.execute request is posted. *)
Theorem run_exploit_stops_when_check_is_not_exploitable
        (E : env) (exploit_name rhosts payload lhost : string) (lport : Z)
        (additional_options : string) (options d : dict) (v : json) (w : world) :
  merged_options E (Tools.exploit_options rhosts payload lhost lport)
                 additional_options = Ok (inl options) ->
  fst (MetasploitClient.call_rpc E "module.check"
         (check_params exploit_name options) w) = Ok (JObj d) ->
  dict_get "result" d = Some v ->
  exploitable v = false ->
  Tools.run_exploit E exploit_name rhosts payload lhost lport
                    additional_options true w
  = (Ok (match v with
         | JObj _ => check_failed_envelope (JObj d)
         | _ => Tools.error_envelope (no_attribute v "get")
         end),
     snd (MetasploitClient.call_rpc E "module.check"
            (check_params exploit_name options) w))
  /\ exists new,
      sent (snd (Tools.run_exploit E exploit_name rhosts payload lhost lport
                                   additional_options true w))
      = (sent w ++ new)%list /\
      Forall (fun r => ~ has_method "module.execute" r) new.
Proof.
  intros Hm Hc Hr Hx. rewrite call_rpc_eval in Hc |- *. cbn [fst snd] in *.
  injection Hc as Hc.
  rewrite run_exploit_eval, Hm. cbv zeta. rewrite Hc, (gate_of_object d Hr).
  assert (Hout : match v with
                 | JObj _ => if exploitable v then Ok None
                             else Ok (Some (check_failed_envelope (JObj d)))
                 | _ => Raise (no_attribute v "get")
                 end
                 = match v with
                   | JObj _ => Ok (Some (check_failed_envelope (JObj d)))
                   | _ => Raise (no_attribute v "get")
                   end).
  { destruct v; try reflexivity. now rewrite Hx. }
  rewrite Hout. clear Hout.
  assert (Heq : (match match v with
                       | JObj _ => Ok (Some (check_failed_envelope (JObj d)))
                       | _ => Raise (no_attribute v "get")
                       end with
                 | Ok (Some t) =>
                     (Ok t, rpc_world E "module.check"
                                      (check_params exploit_name options) w)
                 | Ok None =>
                     then_execute E exploit_name rhosts options
                       (rpc_world E "module.check"
                                  (check_params exploit_name options) w)
                 | Raise e =>
                     (Ok (Tools.error_envelope e),
                      rpc_world E "module.check"
                                (check_params exploit_name options) w)
                 end)
                = (Ok (match v with
                       | JObj _ => check_failed_envelope (JObj d)
                       | _ => Tools.error_envelope (no_attribute v "get")
                       end),
                   rpc_world E "module.check" (check_params exploit_name options) w))
    by (destruct v; reflexivity).
  rewrite Heq. split; [reflexivity|]. cbn [snd].
  destruct (rpc_world_methods E "module.check" (check_params exploit_name options) w)
    as (new & Hs & Hf).
  exists new. split; [exact Hs|].
  eapply Forall_impl; [|exact Hf].
  intros r Hr'. now apply not_execute_login_or_check.
Qed.

(** X15.  A blob that is valid JSON but a scalar (null, a boolean or a
    number) is not reported as invalid JSON: [update] raises a TypeError,
    both tools answer status error with its text, and nothing is posted or
    written. *)
Theorem scalar_override_is_a_type_error
        (E : env) (exploit_name rhosts payload lhost : string) (lport : Z)
        (run_check : bool) (payload_name format_type p_lhost : string)
        (p_lport : Z) (additional_options : string) (v : json) (w : world) :
  additional_options <> "" ->
  json_loads E additional_options = Ok v ->
  match v with JNull | JBool _ | JNum _ => True | _ => False end ->
  Tools.run_exploit E exploit_name rhosts payload lhost lport
                    additional_options run_check w
  = (Ok (json_dumps (JObj [("status", JStr "error");
                           ("message", JStr (squote (type_name v)
                                             ++ " object is not iterable"))])
                    None), w)
  /\ Tools.generate_payload E payload_name format_type p_lhost p_lport
                            additional_options w
     = (Ok (json_dumps (JObj [("status", JStr "error");
                              ("message", JStr (squote (type_name v)
                                                ++ " object is not iterable"))])
                       None), w).
Proof.
  intros Hne Hl Hv.
  assert (Hm : forall options,
             merged_options E options additional_options = Raise (not_iterable v)).
  { intros options. unfold merged_options, Tools.merge_additional, nonempty.
    destruct (String.eqb additional_options "") eqn:Ee.
    - apply String.eqb_eq in Ee. contradiction.
    - cbn [negb]. run. rewrite Hl.
      destruct v; try contradiction; reflexivity. }
  split.
  - rewrite run_exploit_eval, Hm. reflexivity.
  - unfold Tools.generate_payload. run.
    rewrite merge_additional_pure, Hm. reflexivity.
Qed.

(** X16.  The options built from the explicit parameters: RHOSTS is always
    there, even empty; PAYLOAD and LHOST only when not empty; LPORT only
    when the port is not 0, as its decimal text; and no other key.  For
    generate-payload the same holds without RHOSTS and PAYLOAD. *)
Theorem explicit_options_keys
        (rhosts payload lhost : string) (lport : Z) (k : string) :
  dict_get k (Tools.exploit_options rhosts payload lhost lport) =
  (if String.eqb k "RHOSTS" then Some (JStr rhosts)
   else if String.eqb k "PAYLOAD"
        then (if nonempty payload then Some (JStr payload) else None)
   else if String.eqb k "LHOST"
        then (if nonempty lhost then Some (JStr lhost) else None)
   else if String.eqb k "LPORT"
        then (if lport =? 0 then None else Some (JStr (str_of_int lport)))
   else None)
  /\ dict_get k (Tools.payload_options lhost lport) =
     (if String.eqb k "LHOST"
      then (if nonempty lhost then Some (JStr lhost) else None)
      else if String.eqb k "LPORT"
           then (if lport =? 0 then None else Some (JStr (str_of_int lport)))
      else None).
Proof.
  unfold Tools.exploit_options, Tools.payload_options.
  destruct (nonempty payload), (nonempty lhost), (lport =? 0); cbn;
    destruct (String.eqb k "RHOSTS") eqn:E1;
    destruct (String.eqb k "PAYLOAD") eqn:E2;
    destruct (String.eqb k "LHOST") eqn:E3;
    destruct (String.eqb k "LPORT") eqn:E4;
    try (split; reflexivity);
    repeat match goal with
           | H : String.eqb k _ = true |- _ => apply String.eqb_eq in H; subst k
           end; discriminate.
Qed.

Lemma gate_known_status (r : json) (t : text) :
  gate_of r = Ok (Some t) -> known_status t.
Proof.
  intros H. rewrite (gate_of_stops r H). right; right. reflexivity.
Qed.

Lemma generate_payload_answers (E : env) (payload_name format_type lhost : string)
      (lport : Z) (additional_options : string) (w : world) :
  exists t w',
    Tools.generate_payload E payload_name format_type lhost lport
                           additional_options w = (Ok t, w')
    /\ known_status t.
Proof.
  unfold Tools.generate_payload, MetasploitClient.generate_payload. run.
  rewrite merge_additional_pure.
  destruct (merged_options E _ additional_options) as [[options|early]|e] eqn:Em.
  - rewrite call_rpc_spec. cbn [fst snd].
    destruct (py_in "result" (classify _)) as [[|]|e]; cbn.
    + unfold os_makedirs, open_wb, f_write.
      repeat match goal with
             | |- context [if ?b then _ else _] => destruct b; cbn
             | |- context [match os_error ?e ?c ?d ?f with _ => _ end] =>
                 destruct (os_error e c d f); cbn
             | |- context [match py_getitem ?a ?b with _ => _ end] =>
                 destruct (py_getitem a b); cbn
             | |- context [match get_data ?a with _ => _ end] =>
                 destruct (get_data a) as [[|]|]; cbn
             end;
        do 2 eexists; (split; [reflexivity|]);
        solve [apply known_status_error | left; reflexivity].
    + do 2 eexists. split; [reflexivity|]. right; left. reflexivity.
    + do 2 eexists. split; [reflexivity|]. apply known_status_error.
  - rewrite (merged_options_early _ _ _ Em).
    do 2 eexists. split; [reflexivity|]. right; left. reflexivity.
  - do 2 eexists. split; [reflexivity|]. apply known_status_error.
Qed.

Lemma list_tool_answers (key : string) (r : result json) :
  exists t,
    match r with
    | Ok v =>
        match py_len v with
        | Ok count =>
            match py_slice_to 50 v with
            | Ok first => Ok (json_dumps (JObj [("status", JStr "success");
                                                ("count", JNum count);
                                                (key, first)]) (Some 2))
            | Raise e => Ok (Tools.error_envelope e)
            end
        | Raise e => Ok (Tools.error_envelope e)
        end
    | Raise e => Ok (Tools.error_envelope e)
    end = Ok t /\ known_status t.
Proof.
  destruct r as [v|e]; [|eexists; split; [reflexivity|apply known_status_error]].
  destruct (py_len v); [|eexists; split; [reflexivity|apply known_status_error]].
  destruct (py_slice_to 50 v);
    eexists; (split; [reflexivity|]);
    [left; reflexivity | apply known_status_error].
Qed.

(** X17.  No tool raises: each of the eight tools, on every input and in
    every world, returns an envelope, and its status is success, error or
    check_failed. *)
Theorem every_tool_returns_an_envelope_with_a_status (E : env) (w : world) :
  (forall search_term,
      exists t w', Tools.list_exploits E search_term w = (Ok t, w') /\ known_status t)
  /\ (forall platform arch,
         exists t w', Tools.list_payloads E platform arch w = (Ok t, w') /\ known_status t)
  /\ (forall exploit_name rhosts payload lhost lport additional_options run_check,
         exists t w',
           Tools.run_exploit E exploit_name rhosts payload lhost lport
                             additional_options run_check w = (Ok t, w')
           /\ known_status t)
  /\ (forall payload_name format_type lhost lport additional_options,
         exists t w',
           Tools.generate_payload E payload_name format_type lhost lport
                                  additional_options w = (Ok t, w')
           /\ known_status t)
  /\ (exists t w', Tools.list_sessions E w = (Ok t, w') /\ known_status t)
  /\ (forall session_id command,
         exists t w',
           Tools.send_session_command E session_id command w = (Ok t, w')
           /\ known_status t)
  /\ (forall session_id,
         exists t w', Tools.kill_session E session_id w = (Ok t, w') /\ known_status t)
  /\ (forall module_name,
         exists t w', Tools.get_module_info E module_name w = (Ok t, w')
                      /\ known_status t).
Proof.
  repeat match goal with |- _ /\ _ => split end.
  - intros search_term. unfold Tools.list_exploits. run.
    destruct (MetasploitClient.list_exploits E search_term w) as [r w'].
    destruct (list_tool_answers "exploits" r) as (t & Ht & Hk).
    exists t, w'. split; [|exact Hk].
    destruct r as [v|e]; [|now inversion Ht].
    destruct (py_len v); [destruct (py_slice_to 50 v)|]; now inversion Ht.
  - intros platform arch. unfold Tools.list_payloads. run.
    destruct (MetasploitClient.list_payloads E platform arch w) as [r w'].
    destruct (list_tool_answers "payloads" r) as (t & Ht & Hk).
    exists t, w'. split; [|exact Hk].
    destruct r as [v|e]; [|now inversion Ht].
    destruct (py_len v); [destruct (py_slice_to 50 v)|]; now inversion Ht.
  - intros exploit_name rhosts payload lhost lport additional_options run_check.
    rewrite run_exploit_eval.
    destruct (merged_options E _ additional_options) as [[options|early]|e] eqn:Em.
    + destruct run_check; cbv zeta.
      * destruct (gate_of _) as [[t|]|e] eqn:Eg.
        -- do 2 eexists. split; [reflexivity|]. exact (gate_known_status _ Eg).
        -- do 2 eexists. split; [reflexivity|]. left. reflexivity.
        -- do 2 eexists. split; [reflexivity|]. apply known_status_error.
      * do 2 eexists. split; [reflexivity|]. left. reflexivity.
    + rewrite (merged_options_early _ _ _ Em).
      do 2 eexists. split; [reflexivity|]. right; left. reflexivity.
    + do 2 eexists. split; [reflexivity|]. apply known_status_error.
  - intros. apply generate_payload_answers.
  - unfold Tools.list_sessions. run.
    destruct (MetasploitClient.list_sessions E w) as [[v|e] w'];
      do 2 eexists; (split; [reflexivity|]);
      [left; reflexivity | apply known_status_error].
  - intros session_id command.
    unfold Tools.send_session_command, MetasploitClient.session_command. run.
    rewrite call_rpc_spec. do 2 eexists. split; [reflexivity|]. left. reflexivity.
  - intros session_id.
    unfold Tools.kill_session, MetasploitClient.kill_session. run.
    rewrite call_rpc_spec. do 2 eexists. split; [reflexivity|]. left. reflexivity.
  - intros module_name. unfold Tools.get_module_info. run.
    rewrite call_rpc_spec. do 2 eexists. split; [reflexivity|]. left. reflexivity.
Qed.

(* ================================================================== *)
(** ** Further properties: generate-payload and its file *)

Lemma length_app_string (a b : string) :
  String.length (a ++ b) = (String.length a + String.length b)%nat.
Proof. induction a as [|c a IH]; simpl; [reflexivity|now rewrite IH]. Qed.



Lemma prefix_char (a b : ascii) (s : string) :
  a <> b -> prefix (String a EmptyString) (String b s) = false.
Proof.
  intros H. cbn [prefix]. destruct (ascii_dec a b); [contradiction|reflexivity].
Qed.

Lemma filename_not_absolute (payload_name format_type : string) :
  prefix "/" (Tools.payload_filename payload_name format_type) = false.
Proof.
  unfold Tools.payload_filename.
  destruct payload_name as [|c s]; cbn [replace_char append].
  - apply prefix_char. discriminate.
  - destruct (Ascii.eqb c "/") eqn:Ec.
    + apply prefix_char. discriminate.
    + apply prefix_char. intros <-. now rewrite Ascii.eqb_refl in Ec.
Qed.

Lemma filename_not_empty (payload_name format_type : string) :
  (0 < String.length (Tools.payload_filename payload_name format_type))%nat.
Proof.
  unfold Tools.payload_filename. rewrite length_app_string. simpl. lia.
Qed.

Lemma join_under (a b : string) :
  prefix "/" b = false ->
  exists sep, (sep = "" \/ sep = "/") /\ os_path_join a b = a ++ sep ++ b.
Proof.
  intros H. unfold os_path_join. rewrite H.
  destruct (String.eqb a "" || ends_with "/" a).
  - exists "". split; [now left|reflexivity].
  - exists "/". split; [now right|reflexivity].
Qed.

Lemma join_differs (a b : string) :
  prefix "/" b = false -> (0 < String.length b)%nat -> os_path_join a b <> a.
Proof.
  intros H Hb Heq. destruct (join_under a b H) as (sep & _ & Hj).
  rewrite Hj in Heq. apply (f_equal String.length) in Heq.
  rewrite !length_app_string in Heq. lia.
Qed.


Lemma is_dir_added (p d : string) (l : list string) (w : world) :
  is_dir p (with_dirs (l ++ [d]) w) = existsb (String.eqb p) l || String.eqb p d.
Proof.
  unfold is_dir. cbn [dirs with_dirs]. rewrite existsb_app. simpl.
  now rewrite orb_false_r.
Qed.

Lemma file_set_twice (fs : list (string * list Byte.byte)) (p : string)
      (c c' : list Byte.byte) :
  file_set (file_set fs p c) p c' = file_set fs p c'.
Proof.
  induction fs as [|[p0 c0] fs IH]; simpl.
  - now rewrite String.eqb_refl.
  - destruct (String.eqb p p0) eqn:Ep; simpl; rewrite Ep; [reflexivity|].
    now rewrite IH.
Qed.

(** generate-payload on a reply whose result is a mapping, when the
    operating system accepts the directory and the file. *)
Lemma generate_payload_saves (E : env) (payload_name format_type lhost : string)
      (lport : Z) (additional_options : string) (options d r : dict) (w : world) :
  merged_options E (Tools.payload_options lhost lport) additional_options
  = Ok (inl options) ->
  fst (MetasploitClient.call_rpc E "module.execute"
         (generate_params payload_name format_type options) w) = Ok (JObj d) ->
  dict_get "result" d = Some (JObj r) ->
  can_save E payload_name format_type w ->
  let w1 := snd (MetasploitClient.call_rpc E "module.execute"
                   (generate_params payload_name format_type options) w) in
  Tools.generate_payload E payload_name format_type lhost lport
                         additional_options w
  = (Ok (match dict_get "data" r with
         | None => payload_success payload_name format_type
                                   (save_path E payload_name format_type) (JObj d)
         | Some x => Tools.error_envelope
                       (Exn TypeError ("a bytes-like object is required, not "
                                       ++ squote (type_name x)))
         end),
     with_files (file_set (files w) (save_path E payload_name format_type) [])
                (with_dirs (dirs_with (save_dir E) w) w1)).
Proof.
  intros Hm Hc Hr (Hdir & Hfile & Hmk & Hpath & Hopen). cbv zeta.
  unfold generate_params in *.
  rewrite call_rpc_eval in Hc |- *. cbn [fst snd] in *. injection Hc as Hc.
  unfold Tools.generate_payload, MetasploitClient.generate_payload. run.
  rewrite merge_additional_pure, Hm, call_rpc_eval, Hc.
  cbn [py_in py_getitem]. unfold dict_mem. rewrite Hr.
  fold (save_dir E). fold (save_path E payload_name format_type).
  set (w1 := rpc_world E "module.execute" _ w).
  assert (Hf1 : files w1 = files w /\ dirs w1 = dirs w).
  { unfold w1, rpc_world, before_request, after_connect.
    destruct (truthy (token w)); [now split|].
    destruct (granted_token _); now split. }
  destruct Hf1 as [Hf1 Hd1].
  assert (Hfile1 : is_file (save_dir E) w1 = false)
    by (unfold is_file; now rewrite Hf1).
  assert (Hisdir1 : forall p, is_dir p w1 = is_dir p w)
    by (intros p; unfold is_dir; now rewrite Hd1).
  assert (Hne : String.eqb (save_path E payload_name format_type) (save_dir E) = false).
  { apply String.eqb_neq. unfold save_path. apply join_differs.
    - apply filename_not_absolute.
    - apply filename_not_empty. }
  unfold os_makedirs.
  apply String.eqb_neq in Hdir. rewrite Hdir, Hfile1, Hd1, Hf1, Hmk, Hisdir1.
  unfold dirs_with in *.
  destruct (is_dir (save_dir E) w) eqn:Ed.
  - unfold open_wb. rewrite Hisdir1, Hpath, Hd1, Hf1, Hopen. cbn [get_data].
    assert (Hw : with_dirs (dirs w) w1 = w1)
      by (rewrite <- Hd1; now destruct w1).
    rewrite Hw.
    destruct (dict_get "data" r) as [x|]; unfold f_write;
      cbn [files with_files]; rewrite ?file_set_twice, ?Hf1; reflexivity.
  - unfold open_wb. rewrite is_dir_added.
    change (existsb (String.eqb (save_path E payload_name format_type)) (dirs w))
      with (is_dir (save_path E payload_name format_type) w).
    rewrite Hpath, Hne. cbn [orb].
    cbn [dirs files with_dirs]. rewrite ?Hd1, ?Hf1, Hopen. cbn [get_data].
    destruct (dict_get "data" r) as [x|]; unfold f_write;
      cbn [files with_files with_dirs dirs token sent];
      rewrite ?file_set_twice, ?Hf1, ?Hd1; reflexivity.
Qed.


(** X20.  Whenever the result carries a data field, of any JSON type, and
    the operating system accepts the save directory and the save path,
    generate-payload answers status error with the TypeError of the write,
    and the file at the save path is left empty: it has been created, or
    truncated if it existed. *)
Theorem generate_payload_with_data_reports_error_and_empties_file
        (E : env) (payload_name format_type lhost : string) (lport : Z)
        (additional_options : string) (options d r : dict) (x : json) (w : world) :
  merged_options E (Tools.payload_options lhost lport) additional_options
  = Ok (inl options) ->
  fst (MetasploitClient.call_rpc E "module.execute"
         (generate_params payload_name format_type options) w) = Ok (JObj d) ->
  dict_get "result" d = Some (JObj r) ->
  dict_get "data" r = Some x ->
  can_save E payload_name format_type w ->
  let out := Tools.generate_payload E payload_name format_type lhost lport
                                    additional_options w in
  fst out = Ok (json_dumps
                  (JObj [("status", JStr "error");
                         ("message", JStr ("a bytes-like object is required, not "
                                           ++ squote (type_name x)))])
                  None)
  /\ files (snd out)
     = file_set (files w) (save_path E payload_name format_type) []
  /\ dirs (snd out) = dirs_with (save_dir E) w.
Proof.
  intros Hm Hc Hr Hdata Hsave. cbv zeta.
  rewrite (@generate_payload_saves E payload_name format_type lhost lport
             additional_options options d r w Hm Hc Hr Hsave).
  rewrite Hdata. repeat split.
Qed.

(** The two theorems above ask that the system accepts the save path.  On
    the machine of the examples it does not when the format holds a slash
    (the path lies in a directory that was never made) or when payload and
    format are both empty (the path names the save directory itself):
    generate-payload then answers status error and writes no file. *)
Lemma generate_payload_refused_save_path :
  let E := mock (ok_200 (JObj [("result", JObj [])])) in
  Tools.generate_payload E "x" "a/b" "" 4444 "" initial_world
  = (Ok (json_dumps
           (JObj [("status", JStr "error");
                  ("message",
                   JStr "[Errno 2] No such file or directory: './payloads/x.a/b'")])
           None),
     World JNull
           [login_request E;
            Request (api_url E)
                    (payload_without_token
                       "module.execute"
                       (generate_params "x" "a/b" [("LPORT", JStr "4444")]))]
           ["./payloads"] [])
  /\ fst (Tools.generate_payload E "" "" "" 4444 "" initial_world)
     = Ok (json_dumps
             (JObj [("status", JStr "error");
                    ("message", JStr "[Errno 21] Is a directory: './payloads/.'")])
             None)
  /\ files (snd (Tools.generate_payload E "" "" "" 4444 "" initial_world)) = [].
Proof.
  repeat split.
Qed.

(* ================================================================== *)
(** ** Further properties: utils.py and server.py *)

Lemma split_on_length (sep : ascii) (s : string) :
  List.length (split_on sep s) = S (count_char sep s).
Proof.
  induction s as [|c s IH]; simpl; [reflexivity|].
  destruct (Ascii.eqb c sep); simpl.
  - now rewrite IH.
  - destruct (split_on sep s) as [|p ps]; simpl in *; [discriminate|exact IH].
Qed.

Lemma count_char_nonempty (c : ascii) (s : string) :
  (0 < count_char c s)%nat -> nonempty s = true.
Proof. destruct s; simpl; [lia|reflexivity]. Qed.

(** X21.  [validate_host] looks only at hosts with exactly three dots:
    every other non-empty host is accepted as it is, a name without dots
    as much as three numbers that are no address. *)
Theorem validate_host_accepts_hosts_without_three_dots
        (max_str_digits : nat) (host : string) :
  host <> "" ->
  count_char "." host <> 3%nat ->
  Utils.validate_host max_str_digits host = true.
Proof.
  intros Hne Hc. unfold Utils.validate_host, nonempty.
  destruct (String.eqb host "") eqn:Eh.
  - apply String.eqb_eq in Eh. contradiction.
  - cbn [negb]. rewrite split_on_length.
    destruct (Nat.eqb_spec (S (count_char "." host)) 4) as [H4|H4]; [lia|reflexivity].
Qed.

Lemma all_octets_true_iff (m : nat) (parts : list string) :
  all_octets m parts = Some true <-> Forall (octet_literal m) parts.
Proof.
  induction parts as [|p parts IH]; simpl.
  - split; [constructor|reflexivity].
  - destruct (py_int m p) as [n|] eqn:Ep.
    + destruct ((0 <=? n) && (n <=? 255)) eqn:Er.
      * rewrite IH. split.
        -- intros H. constructor; [|exact H]. exists n. split; [exact Ep|lia].
        -- intros H. now inversion H.
      * split; [discriminate|].
        intros H. inversion H as [|? ? (n' & Hn' & Hr) _]; subst.
        rewrite Ep in Hn'. inversion Hn'; subst. lia.
    + split; [discriminate|].
      intros H. inversion H as [|? ? (n' & Hn' & _) _]; subst.
      rewrite Ep in Hn'. discriminate.
Qed.

(** X22.  A host with exactly three dots is accepted if and only if each
    of its four parts is an integer literal between 0 and 255; a host name
    of four labels is therefore refused. *)
Theorem validate_host_with_three_dots_wants_four_octets
        (max_str_digits : nat) (host : string) :
  count_char "." host = 3%nat ->
  (Utils.validate_host max_str_digits host = true <->
   Forall (octet_literal max_str_digits) (split_on "." host)).
Proof.
  intros Hc. unfold Utils.validate_host.
  rewrite (count_char_nonempty "." host) by lia. cbn [negb].
  rewrite split_on_length, Hc. cbn [Nat.eqb].
  rewrite <- all_octets_true_iff.
  destruct (all_octets max_str_digits (split_on "." host)) as [[|]|];
    split; congruence.
Qed.

(** Reading back the digits [str] prints, on top of what was read. *)
Lemma digits_acc_uint (d : Decimal.uint) (acc : positive) (count : nat) :
  digits_acc (Z.pos acc) count true (NilEmpty.string_of_uint d)
  = Some (Z.pos (Pos.of_uint_acc d acc),
          (count + String.length (NilEmpty.string_of_uint d))%nat).
Proof.
  revert acc count.
  induction d as [|d IH|d IH|d IH|d IH|d IH|d IH|d IH|d IH|d IH|d IH];
    intros acc count;
    cbn [NilEmpty.string_of_uint digits_acc Pos.of_uint_acc String.length];
    [f_equal; f_equal; lia|..];
    match goal with
    | |- context [is_digit ?c] =>
        change (is_digit c) with true; cbn iota;
        let v := eval cbv in (digit_value c) in
        change (digit_value c) with v
    end;
    match goal with
    | |- digits_acc ?a _ _ _ = Some (Z.pos (Pos.of_uint_acc _ ?b), _) =>
        replace a with (Z.pos b) by lia
    end;
    rewrite IH; f_equal; f_equal; lia.
Qed.

Lemma digits_acc_zero (d : Decimal.uint) (count : nat) :
  digits_acc 0 count true (NilEmpty.string_of_uint d)
  = Some (Z.of_N (Pos.of_uint d),
          (count + String.length (NilEmpty.string_of_uint d))%nat).
Proof.
  revert count.
  induction d as [|d IH|d IH|d IH|d IH|d IH|d IH|d IH|d IH|d IH|d IH];
    intros count;
    cbn [NilEmpty.string_of_uint digits_acc Pos.of_uint String.length];
    [f_equal; f_equal; lia|..];
    match goal with
    | |- context [is_digit ?c] =>
        change (is_digit c) with true; cbn iota;
        let v := eval cbv in (10 * 0 + digit_value c) in
        change (10 * 0 + digit_value c) with v
    end;
    [rewrite IH; f_equal; f_equal; lia|..];
    rewrite digits_acc_uint; f_equal; f_equal; lia.
Qed.

Lemma digits_acc_start (d : Decimal.uint) :
  digits_acc 0 0 false (NilZero.string_of_uint d)
  = Some (Z.of_uint d, String.length (NilZero.string_of_uint d)).
Proof.
  unfold Z.of_uint.
  destruct d; [reflexivity|..];
    match goal with
    | |- digits_acc 0 0 false (NilZero.string_of_uint ?u) = _ =>
        transitivity (digits_acc 0 0 true (NilEmpty.string_of_uint u));
        [reflexivity | rewrite digits_acc_zero; reflexivity]
    end.
Qed.

Lemma digit_not_space (c : ascii) : is_digit c = true -> is_space c = false.
Proof.
  destruct c as [[] [] [] [] [] [] [] []]; intros H;
    try reflexivity; discriminate H.
Qed.

Lemma uint_all_digits (d : Decimal.uint) :
  all_digits (NilEmpty.string_of_uint d) = true.
Proof. induction d; simpl; auto. Qed.

Lemma uint_printed (d : Decimal.uint) :
  exists c s, NilZero.string_of_uint d = String c s
              /\ is_digit c = true /\ all_digits s = true.
Proof.
  destruct d; cbn [NilZero.string_of_uint NilEmpty.string_of_uint];
    do 2 eexists; (split; [reflexivity|]); split;
      try reflexivity; apply uint_all_digits.
Qed.

Lemma rstrip_digits (s : string) : all_digits s = true -> rstrip s = s.
Proof.
  induction s as [|c s IH]; simpl; [reflexivity|].
  intros H. apply andb_prop in H. destruct H as [Hc Hs].
  rewrite (IH Hs). rewrite (digit_not_space c Hc). now destruct s.
Qed.

Lemma int_literal_digits (c : ascii) (s : string) :
  is_digit c = true -> all_digits s = true ->
  int_literal (String c s) =
  match digits_acc 0 0 false (String c s) with
  | Some (n, count) => Some (n, count)
  | None => None
  end.
Proof.
  intros Hc Hs. unfold int_literal.
  cbn [lstrip]. rewrite (digit_not_space c Hc).
  rewrite rstrip_digits by (simpl; now rewrite Hc, Hs).
  destruct c as [[] [] [] [] [] [] [] []]; try discriminate Hc; reflexivity.
Qed.

Lemma int_literal_minus (c : ascii) (s : string) :
  is_digit c = true -> all_digits s = true ->
  int_literal (String "-" (String c s)) =
  match digits_acc 0 0 false (String c s) with
  | Some (n, count) => Some (- n, count)
  | None => None
  end.
Proof.
  intros Hc Hs. unfold int_literal.
  cbn [lstrip]. change (is_space "-") with false. cbn iota.
  assert (Hr : rstrip (String "-" (String c s)) = String "-" (String c s)).
  { change (rstrip (String "-" (String c s)))
      with (match rstrip (String c s) with
            | EmptyString => if is_space "-" then EmptyString
                             else String "-" EmptyString
            | r => String "-" r
            end).
    rewrite rstrip_digits by (simpl; now rewrite Hc, Hs). reflexivity. }
  rewrite Hr. reflexivity.
Qed.

(** [int] reads back what [str] prints: the value, and as many digits as
    the text has without its sign. *)
Lemma int_literal_str (z : Z) :
  exists count, int_literal (str_of_int z) = Some (z, count).
Proof.
  unfold str_of_int.
  destruct z as [|p|p]; cbn [Z.to_int NilZero.string_of_int].
  - eexists. reflexivity.
  - destruct (uint_printed (Pos.to_uint p)) as (c & s & Hs & Hc & Hd).
    pose proof (digits_acc_start (Pos.to_uint p)) as H.
    rewrite Hs in H |- *. rewrite (int_literal_digits c s Hc Hd), H.
    eexists. f_equal. f_equal.
    exact (DecimalZ.of_to (Z.pos p)).
  - destruct (uint_printed (Pos.to_uint p)) as (c & s & Hs & Hc & Hd).
    pose proof (digits_acc_start (Pos.to_uint p)) as H.
    rewrite Hs in H |- *. rewrite (int_literal_minus c s Hc Hd), H.
    eexists. f_equal. f_equal.
    exact (DecimalZ.of_to (Z.neg p)).
Qed.

Lemma py_int_str (m : nat) (z : Z) :
  py_int m (str_of_int z) = Some z \/ py_int m (str_of_int z) = None.
Proof.
  unfold py_int. destruct (int_literal_str z) as [count ->].
  destruct ((0 <? m)%nat && (m <? count)%nat); [now right|now left].
Qed.

Lemma octet_digits (z : Z) :
  0 <= z <= 255 ->
  exists count, int_literal (str_of_int z) = Some (z, count) /\ (count <= 3)%nat.
Proof.
  intros Hz.
  assert (Hall : forallb (fun n => match int_literal (str_of_int (Z.of_nat n)) with
                                   | Some (v, c) => (v =? Z.of_nat n) && (c <=? 3)%nat
                                   | None => false
                                   end) (seq 0 256) = true) by (vm_compute; reflexivity).
  rewrite forallb_forall in Hall.
  specialize (Hall (Z.to_nat z)).
  rewrite Z2Nat.id in Hall by lia.
  assert (Hin : In (Z.to_nat z) (seq 0 256)) by (apply in_seq; lia).
  specialize (Hall Hin).
  destruct (int_literal (str_of_int z)) as [[v c]|]; [|discriminate].
  apply andb_prop in Hall. destruct Hall as [Hv Hc].
  apply Z.eqb_eq in Hv. apply Nat.leb_le in Hc. subst v.
  now exists c.
Qed.

Lemma py_int_octet (m : nat) (z : Z) :
  (m = 0 \/ 3 <= m)%nat -> 0 <= z <= 255 -> py_int m (str_of_int z) = Some z.
Proof.
  intros Hm Hz. unfold py_int.
  destruct (octet_digits Hz) as (count & -> & Hc).
  destruct Hm as [-> | Hm]; [reflexivity|].
  destruct (Nat.ltb_spec m count) as [Hlt|_]; [lia|].
  now rewrite andb_false_r.
Qed.

Lemma digit_not_dot (c : ascii) : is_digit c = true -> Ascii.eqb c "." = false.
Proof.
  destruct c as [[] [] [] [] [] [] [] []]; intros H;
    try reflexivity; discriminate H.
Qed.

Lemma digits_lack_dot (s : string) : all_digits s = true -> lacks "." s = true.
Proof.
  induction s as [|c s IH]; simpl; [reflexivity|].
  intros H. apply andb_prop in H. destruct H as [Hc Hs].
  now rewrite (digit_not_dot c Hc), (IH Hs).
Qed.

Lemma str_of_int_lacks_dot (z : Z) : lacks "." (str_of_int z) = true.
Proof.
  unfold str_of_int.
  destruct z as [|p|p]; cbn [Z.to_int NilZero.string_of_int]; [reflexivity|..];
    destruct (uint_printed (Pos.to_uint p)) as (c & s & -> & Hc & Hd);
    cbn [lacks]; change (Ascii.eqb "-" ".") with false; cbn [negb andb];
    now rewrite (digit_not_dot c Hc), (digits_lack_dot s Hd).
Qed.

Lemma split_on_last (a : string) : lacks "." a = true -> split_on "." a = [a].
Proof.
  induction a as [|c a IH]; simpl; [reflexivity|].
  intros H. apply andb_prop in H. destruct H as [Hc Ha].
  destruct (Ascii.eqb c "."); [discriminate|]. now rewrite (IH Ha).
Qed.

Lemma split_on_first (a rest : string) :
  lacks "." a = true ->
  split_on "." (a ++ "." ++ rest) = a :: split_on "." rest.
Proof.
  induction a as [|c a IH]; intros H.
  - reflexivity.
  - simpl in H. apply andb_prop in H. destruct H as [Hc Ha].
    change (split_on "." (String c (a ++ "." ++ rest)) = String c a :: split_on "." rest).
    cbn [split_on]. destruct (Ascii.eqb c "."); [discriminate|].
    now rewrite (IH Ha).
Qed.

Lemma all_octets_cons (m : nat) (z : Z) (rest : list string) :
  (m = 0 \/ 3 <= m)%nat ->
  match all_octets m (str_of_int z :: rest) with
  | Some b => b
  | None => false
  end
  = is_octet z && match all_octets m rest with Some b => b | None => false end.
Proof.
  intros Hm. cbn [all_octets]. unfold is_octet.
  destruct ((0 <=? z) && (z <=? 255)) eqn:Hz.
  - rewrite py_int_octet; [|exact Hm|lia]. now rewrite Hz.
  - destruct (py_int_str m z) as [-> | ->]; [now rewrite Hz|reflexivity].
Qed.

(** X23.  On the dotted quad of four integers, printed as [str] prints
    them, [validate_host] answers exactly whether all four lie between 0
    and 255 (for every digit limit Python accepts: none, or 640 and more;
    3 is enough here). *)
Theorem validate_host_on_dotted_quad
        (max_str_digits : nat) (a b c d : Z) :
  (max_str_digits = 0 \/ 3 <= max_str_digits)%nat ->
  Utils.validate_host max_str_digits (dotted_quad a b c d)
  = is_octet a && is_octet b && is_octet c && is_octet d.
Proof.
  intros Hm. unfold Utils.validate_host, dotted_quad.
  assert (Hs : split_on "." (str_of_int a ++ "." ++ str_of_int b ++ "."
                             ++ str_of_int c ++ "." ++ str_of_int d)
               = [str_of_int a; str_of_int b; str_of_int c; str_of_int d]).
  { rewrite !split_on_first by apply str_of_int_lacks_dot.
    now rewrite split_on_last by apply str_of_int_lacks_dot. }
  rewrite Hs. cbn [List.length Nat.eqb].
  assert (Hne : nonempty (str_of_int a ++ "." ++ str_of_int b ++ "."
                          ++ str_of_int c ++ "." ++ str_of_int d) = true).
  { destruct (str_of_int a); reflexivity. }
  rewrite Hne. cbn [negb].
  rewrite !all_octets_cons by exact Hm.
  cbn [all_octets]. now rewrite andb_true_r, !andb_assoc.
Qed.

(** X24.  The server refuses to start without a credential: [main] exits
    with code 1 exactly when MSF_RPC_PASSWORD is unset or empty, that is
    when the client would log in with an empty password; otherwise it runs
    the server: over stdio without any argument, over http and over sse
    with exactly the transport of that name, the host and the port. *)
Theorem main_exits_without_password (E : env) (args : namespace) :
  (main E args = SystemExit 1 <-> MetasploitClient.rpc_password E = "")
  /\ (MetasploitClient.rpc_password E <> "" ->
      exists kwargs,
        main E args = McpRun kwargs /\
        (transport args = stdio -> kwargs = []) /\
        (transport args = http_transport ->
         kwargs = [("transport", JStr "http");
                   ("host", JStr (host args));
                   ("port", JNum (port args))]) /\
        (transport args = sse ->
         kwargs = [("transport", JStr "sse");
                   ("host", JStr (host args));
                   ("port", JNum (port args))])).
Proof.
  unfold main, MetasploitClient.rpc_password, os_getenv, nonempty.
  destruct (environ E "MSF_RPC_PASSWORD") as [v|].
  - destruct (String.eqb v "") eqn:Ev; cbn [negb].
    + apply String.eqb_eq in Ev. subst v. split; [split; reflexivity|].
      intros H. contradiction.
    + apply String.eqb_neq in Ev. split.
      * split; [|contradiction].
        destruct (transport args); discriminate.
      * intros _. destruct (transport args); eexists;
          (split; [reflexivity|]); (split; [|split]); intros H;
          try reflexivity; discriminate.
  - cbn [negb]. split; [split; reflexivity|]. intros H. contradiction.
Qed.

(* ================================================================== *)
(** ** The further properties at concrete inputs *)

Lemma call_rpc_with_token_posts_one_request_witness :
  sent (snd (MetasploitClient.call_rpc granting_env "session.list" JNull
                                       authenticated_world))
  = [Request (api_url granting_env)
             (payload_with_token "session.list" JNull (JStr "abc"))].
Proof.
  rewrite (call_rpc_with_token_posts_one_request granting_env "session.list" JNull
             authenticated_world eq_refl).
  reflexivity.
Defined.

Lemma call_rpc_logs_in_and_uses_granted_token_witness :
  snd (MetasploitClient.call_rpc granting_env "session.list" JNull initial_world)
  = World (JStr "abc")
          [login_request granting_env;
           Request (api_url granting_env)
                   (payload_with_token "session.list" JNull (JStr "abc"))]
          [] [].
Proof.
  rewrite (call_rpc_logs_in_and_uses_granted_token granting_env "session.list" JNull
             (t := JStr "abc") initial_world eq_refl eq_refl eq_refl).
  reflexivity.
Defined.

Lemma call_rpc_posts_without_token_after_refused_login_witness :
  sent (snd (MetasploitClient.call_rpc (mock (http 500 JNull)) "session.list" JNull
                                       initial_world))
  = [login_request (mock (http 500 JNull));
     Request (api_url (mock (http 500 JNull)))
             (payload_without_token "session.list" JNull)].
Proof.
  rewrite (call_rpc_posts_without_token_after_refused_login
             (mock (http 500 JNull)) "session.list" JNull initial_world
             eq_refl eq_refl).
  reflexivity.
Defined.

Lemma second_call_reuses_token_witness :
  let w1 := snd (MetasploitClient.call_rpc granting_env "module.exploits" JNull
                                           initial_world) in
  sent (snd (MetasploitClient.call_rpc granting_env "session.list" JNull w1))
  = [login_request granting_env;
     Request (api_url granting_env)
             (payload_with_token "module.exploits" JNull (JStr "abc"));
     Request (api_url granting_env)
             (payload_with_token "session.list" JNull (JStr "abc"))]
  /\ token (snd (MetasploitClient.call_rpc granting_env "session.list" JNull w1))
     = JStr "abc".
Proof.
  exact (second_call_reuses_token granting_env "module.exploits" "session.list"
           JNull JNull (t := JStr "abc") initial_world eq_refl eq_refl eq_refl).
Defined.

Lemma refused_login_is_retried_on_every_call_witness :
  let E := mock (http 500 JNull) in
  let w1 := snd (MetasploitClient.call_rpc E "module.exploits" JNull initial_world) in
  sent (snd (MetasploitClient.call_rpc E "session.list" JNull w1))
  = [login_request E;
     Request (api_url E) (payload_without_token "module.exploits" JNull);
     login_request E;
     Request (api_url E) (payload_without_token "session.list" JNull)].
Proof.
  exact (refused_login_is_retried_on_every_call
           (mock (http 500 JNull)) "module.exploits" "session.list" JNull JNull
           initial_world eq_refl (fun _ => eq_refl)).
Defined.

Lemma empty_granted_token_leaves_session_unauthenticated_witness :
  let E := mock (ok_200 (JObj [("result", JObj [("token", JStr "")])])) in
  fst (MetasploitClient.connect E initial_world) = Ok true /\
  token (snd (MetasploitClient.connect E initial_world)) = JStr "" /\
  sent (snd (MetasploitClient.call_rpc E "session.list" JNull initial_world))
  = [login_request E;
     Request (api_url E) (payload_without_token "session.list" JNull)].
Proof.
  exact (empty_granted_token_leaves_session_unauthenticated
           (mock (ok_200 (JObj [("result", JObj [("token", JStr "")])])))
           "session.list" JNull (t := JStr "") initial_world
           eq_refl eq_refl eq_refl).
Defined.

Lemma list_payloads_filters_conjunctively_witness :
  let E := mock (ok_200 (JObj [("result", JArr three_payloads)])) in
  fst (MetasploitClient.list_payloads E "Windows" "x64" initial_world)
  = Ok (JArr [JStr "windows/x64/meterpreter/reverse_tcp"]).
Proof.
  exact (list_payloads_filters_conjunctively
           (mock (ok_200 (JObj [("result", JArr three_payloads)])))
           "Windows" "x64" initial_world
           (body := [("result", JArr three_payloads)]) eq_refl).
Defined.

Lemma list_exploits_ignores_case_of_term_witness :
  let E := mock (ok_200 (JObj [("result", JArr two_exploits)])) in
  MetasploitClient.list_exploits E "SMB" initial_world
  = MetasploitClient.list_exploits E "smb" initial_world.
Proof.
  exact (list_exploits_ignores_case_of_term
           (mock (ok_200 (JObj [("result", JArr two_exploits)])))
           "SMB" "smb" initial_world eq_refl).
Defined.

Lemma list_tools_report_success_on_error_reply_witness :
  fst (Tools.list_exploits (mock (http 500 JNull)) "smb" initial_world)
  = Ok (json_dumps (JObj [("status", JStr "success"); ("count", JNum 0);
                          ("exploits", JArr [])]) (Some 2)).
Proof.
  exact (proj1 (list_tools_report_success_on_error_reply
                  (mock (http 500 JNull)) initial_world)
               "smb" [("error", JStr "HTTP 500")] eq_refl eq_refl).
Defined.

Lemma list_sessions_tool_returns_every_session_witness :
  let E := mock (ok_200 (JObj [("result", JObj two_sessions)])) in
  fst (Tools.list_sessions E initial_world)
  = Ok (json_dumps
          (JObj [("status", JStr "success");
                 ("count", JNum 2);
                 ("sessions",
                  JArr [JObj [("id", JStr "1"); ("type", JStr "shell")];
                        JObj [("id", JStr "2"); ("type", JStr "meterpreter")]])])
          (Some 2)).
Proof.
  refine (proj1 (list_sessions_tool_returns_every_session
                   (mock (ok_200 (JObj [("result", JObj two_sessions)])))
                   initial_world
                   (body := [("result", JObj two_sessions)])
                   (entries := two_sessions) _ _ _)).
  - reflexivity.
  - reflexivity.
  - constructor; [|constructor; [|constructor]].
    + exists [("type", JStr "shell")]. split; [reflexivity|].
      constructor; [intros []|constructor].
    + exists [("type", JStr "meterpreter")]. split; [reflexivity|].
      constructor; [intros []|constructor].
Defined.

Lemma list_sessions_tool_fails_on_one_bad_entry_witness :
  let E := mock (ok_200 (JObj [("result", JObj [("1", JStr "gone")])])) in
  exists e,
    exn_cls e = TypeError /\
    fst (MetasploitClient.list_sessions E initial_world) = Raise e /\
    fst (Tools.list_sessions E initial_world) = Ok (Tools.error_envelope e).
Proof.
  apply (list_sessions_tool_fails_on_one_bad_entry
           (mock (ok_200 (JObj [("result", JObj [("1", JStr "gone")])])))
           initial_world
           (body := [("result", JObj [("1", JStr "gone")])])
           (entries := [("1", JStr "gone")])).
  - reflexivity.
  - reflexivity.
  - constructor. exact I.
Defined.

Lemma run_exploit_without_check_posts_only_execute_witness :
  let E := mock (http 500 JNull) in
  map method_of
      (sent (snd (Tools.run_exploit E "exploit/unix/ftp" "10.0.0.1" "" "" 4444 ""
                                    false initial_world)))
  = [Some (JStr "login"); Some (JStr "module.execute")].
Proof.
  destruct (run_exploit_without_check_posts_only_execute
              (mock (http 500 JNull)) "exploit/unix/ftp" "10.0.0.1" "" "" 4444 ""
              (options := [("RHOSTS", JStr "10.0.0.1"); ("LPORT", JStr "4444")])
              initial_world eq_refl) as [H _].
  cbv zeta. rewrite H. reflexivity.
Defined.

Lemma run_exploit_executes_when_check_says_exploitable_witness :
  let E := mock (ok_200 (JObj [("result", JObj [("status", JStr "exploitable")])])) in
  map method_of
      (sent (snd (Tools.run_exploit E "exploit/unix/ftp" "10.0.0.1" "" "" 4444 ""
                                    true initial_world)))
  = [Some (JStr "login"); Some (JStr "module.check");
     Some (JStr "login"); Some (JStr "module.execute")].
Proof.
  cbv zeta.
  rewrite (run_exploit_executes_when_check_says_exploitable
             (mock (ok_200 (JObj [("result", JObj [("status", JStr "exploitable")])])))
             "exploit/unix/ftp" "10.0.0.1" "" "" 4444 ""
             (options := [("RHOSTS", JStr "10.0.0.1"); ("LPORT", JStr "4444")])
             (d := [("result", JObj [("status", JStr "exploitable")])])
             (v := JObj [("status", JStr "exploitable")])
             initial_world eq_refl eq_refl eq_refl eq_refl).
  reflexivity.
Defined.

Lemma run_exploit_stops_when_check_is_not_exploitable_witness :
  let reply := JObj [("result", JObj [("status", JStr "safe")])] in
  let E := mock (ok_200 reply) in
  fst (Tools.run_exploit E "exploit/unix/ftp" "10.0.0.1" "" "" 4444 "" true
                         initial_world)
  = Ok (check_failed_envelope reply).
Proof.
  destruct (run_exploit_stops_when_check_is_not_exploitable
              (mock (ok_200 (JObj [("result", JObj [("status", JStr "safe")])])))
              "exploit/unix/ftp" "10.0.0.1" "" "" 4444 ""
              (options := [("RHOSTS", JStr "10.0.0.1"); ("LPORT", JStr "4444")])
              (d := [("result", JObj [("status", JStr "safe")])])
              (v := JObj [("status", JStr "safe")])
              initial_world eq_refl eq_refl eq_refl eq_refl) as [H _].
  cbv zeta. rewrite H. reflexivity.
Defined.

Lemma scalar_override_is_a_type_error_witness :
  Tools.run_exploit five_env "exploit/unix/ftp" "10.0.0.1" "" "" 4444 "5" true
                    initial_world
  = (Ok (json_dumps (JObj [("status", JStr "error");
                           ("message", JStr "'int' object is not iterable")])
                    None), initial_world).
Proof.
  exact (proj1 (scalar_override_is_a_type_error
                  five_env "exploit/unix/ftp" "10.0.0.1" "" "" 4444 true
                  "linux/x86/shell_reverse_tcp" "elf" "" 4444
                  (additional_options := "5") (v := JNum 5) initial_world
                  ltac:(discriminate) eq_refl I)).
Defined.


Lemma generate_payload_with_data_reports_error_and_empties_file_witness :
  let E := mock (ok_200 (JObj [("result", JObj [("data", JStr "TVqQ")])])) in
  let out := Tools.generate_payload E "windows/meterpreter/reverse_tcp" "exe" ""
                                    4444 "" initial_world in
  can_save E "windows/meterpreter/reverse_tcp" "exe" initial_world
  /\ fst out = Ok (json_dumps
                     (JObj [("status", JStr "error");
                            ("message", JStr "a bytes-like object is required, not 'str'")])
                     None)
  /\ files (snd out) = [("./payloads/windows_meterpreter_reverse_tcp.exe", [])]
  /\ dirs (snd out) = ["./payloads"].
Proof.
  cbv zeta.
  assert (Hs : can_save (mock (ok_200 (JObj [("result", JObj [("data", JStr "TVqQ")])])))
                        "windows/meterpreter/reverse_tcp" "exe" initial_world).
  { split; [discriminate|]. repeat split; reflexivity. }
  split; [exact Hs|].
  exact (@generate_payload_with_data_reports_error_and_empties_file
           (mock (ok_200 (JObj [("result", JObj [("data", JStr "TVqQ")])])))
           "windows/meterpreter/reverse_tcp" "exe" "" 4444 ""
           [("LPORT", JStr "4444")]
           [("result", JObj [("data", JStr "TVqQ")])]
           [("data", JStr "TVqQ")] (JStr "TVqQ")
           initial_world eq_refl eq_refl eq_refl eq_refl Hs).
Defined.

Lemma generate_payload_without_result_witness :
  let E := mock (http 500 JNull) in
  let out := Tools.generate_payload E "windows/meterpreter/reverse_tcp" "exe" ""
                                    4444 "" initial_world in
  fst out = Ok (json_dumps (JObj [("status", JStr "error");
                                  ("message", JStr "Payload generation failed");
                                  ("result", JObj [("error", JStr "HTTP 500")])])
                           None)
  /\ files (snd out) = [] /\ dirs (snd out) = [].
Proof.
  exact (generate_payload_without_result
           (mock (http 500 JNull))
           "windows/meterpreter/reverse_tcp" "exe" "" 4444 ""
           (options := [("LPORT", JStr "4444")])
           (d := [("error", JStr "HTTP 500")])
           initial_world eq_refl eq_refl eq_refl).
Defined.

Lemma validate_host_accepts_hosts_without_three_dots_witness :
  Utils.validate_host 4300 "999.999.999" = true.
Proof.
  apply validate_host_accepts_hosts_without_three_dots.
  - discriminate.
  - simpl. discriminate.
Defined.

Lemma validate_host_with_three_dots_wants_four_octets_witness :
  Utils.validate_host 4300 "www.example.co.uk" = true <->
  Forall (octet_literal 4300) (split_on "." "www.example.co.uk").
Proof.
  apply validate_host_with_three_dots_wants_four_octets. reflexivity.
Defined.

Lemma validate_host_on_dotted_quad_witness :
  Utils.validate_host 4300 "10.0.0.1" = true
  /\ Utils.validate_host 4300 "10.0.0.256" = false.
Proof.
  split.
  - apply (validate_host_on_dotted_quad (max_str_digits := 4300) 10 0 0 1). right.
    apply Nat.leb_le. reflexivity.
  - apply (validate_host_on_dotted_quad (max_str_digits := 4300) 10 0 0 256). right.
    apply Nat.leb_le. reflexivity.
Defined.

Lemma main_exits_without_password_witness :
  MetasploitClient.rpc_password password_env <> ""
  /\ exists kwargs,
       main password_env (Namespace http_transport "127.0.0.1" 8080) = McpRun kwargs /\
       (http_transport = stdio -> kwargs = []) /\
       (http_transport = http_transport ->
        kwargs = [("transport", JStr "http");
                  ("host", JStr "127.0.0.1");
                  ("port", JNum 8080)]) /\
       (http_transport = sse ->
        kwargs = [("transport", JStr "sse");
                  ("host", JStr "127.0.0.1");
                  ("port", JNum 8080)]).
Proof.
  assert (Hp : MetasploitClient.rpc_password password_env <> "") by discriminate.
  split; [exact Hp|].
  exact (proj2 (main_exits_without_password
                  password_env (Namespace http_transport "127.0.0.1" 8080)) Hp).
Defined.
